(** * MySuperTraderBot: a shallow embedding of [main.py]

    The bot polls an exchange for candles, asks an indicator library for the
    SuperTrend direction of the last bar and tells a Telegram chat when that
    direction changes.  The exchange, the indicator library, the clock and the
    Telegram transport are collaborators the program does not implement: they
    appear here as the fields of an environment [Env], universally quantified
    in every theorem.  Everything the program itself does (logging, sending,
    sleeping, updating the [TradingBot] object) is recorded in an explicit
    [World], threaded through a small state-and-exception monad [M].

    Conventions.  An exception is an instance of Python's [Exception].
    Ctrl-C concerns the main thread only: it is a [KeyboardInterrupt] that
    may arrive as the main block comes to any of its statements, or come out
    of [infinity_polling].  Writing a log record and sleeping do not fail.  The polling thread and the main
    thread share the [TradingBot] object: the handlers read it from the
    world, and a [stop] of the main thread reaches the loop at its next
    [while] test. *)

From Stdlib Require Import String Ascii List ZArith Bool Lia.
From Stdlib Require Import Floats.PrimFloat.
From Stdlib Require Import Numbers.DecimalString.
Import ListNotations.

Local Open Scope string_scope.
Local Open Scope list_scope.

(** ** Python values the program handles *)

(** An f-string is the concatenation of its pieces. *)
Fixpoint fstring (parts : list string) : string :=
  match parts with
  | [] => ""
  | p :: rest => String.append p (fstring rest)
  end.
Arguments fstring : simpl never.

(** [s] occurs in [text] as a contiguous piece. *)
Definition Contains (text s : string) : Prop :=
  exists before after, text = String.append before (String.append s after).

(** The line feed of an f-string. *)
Definition nl : string := String (ascii_of_nat 10) "".

(** [str(n)] for an integer. *)
Definition str_int (n : Z) : string :=
  match n with
  | Z0 => "0"
  | Zpos p => NilZero.string_of_uint (Pos.to_uint p)
  | Zneg p => String.append "-" (NilZero.string_of_uint (Pos.to_uint p))
  end.

(** Instances of Python's [Exception], told apart by the classes the
    program's [except] clauses name.  A subclass of [ccxt.NetworkError] or of
    [ccxt.ExchangeError] is filed under the class that catches it. *)
Inductive exn_class : Type :=
| NetworkError
| ExchangeError
| ValueError
| IndexError
| OtherException.

Record exn : Type := mkExn { exn_cls : exn_class; exn_text : string }.

(** [str(e)] *)
Definition str_exn (e : exn) : string := exn_text e.

Inductive outcome (A : Type) : Type :=
| Ret (a : A)
| Raise (e : exn).
Arguments Ret {A} a.
Arguments Raise {A} e.

(** One row of [exchange.fetch_ohlcv]. *)
Record candle : Type := mkCandle {
  c_timestamp : Z;
  c_open : float;
  c_high : float;
  c_low : float;
  c_close : float;
  c_volume : float
}.

(** One row of the frame [ta.supertrend] returns, one field per column:
    SUPERT_10_3.0, SUPERTd_10_3.0, SUPERTl_10_3.0, SUPERTs_10_3.0. *)
Record st_row : Type := mkStRow {
  SUPERT : float;
  SUPERTd : float;
  SUPERTl : float;
  SUPERTs : float
}.

(** The dict [signal_data] of [get_signal]. *)
Record signal_data : Type := mkSignal {
  direction : string;
  price : float;
  timestamp : string
}.

(** A destination of [bot.send_message]: the configured [CHAT_ID] (a string
    from the environment) or the integer [message.chat.id]. *)
Inductive chat_ref : Type :=
| ChatEnv (id : option string)
| ChatInt (id : Z).

(** An inbound Telegram message, as far as the handlers look into it. *)
Record message : Type := mkMessage {
  message_id : Z;
  chat_id : Z;
  from_user_id : Z
}.

Inductive log_level : Type := INFO | WARNING | ERROR | CRITICAL.

(** What the program does to the outside, in the order it does it. *)
Inductive event : Type :=
| Logged (lvl : log_level) (msg : string) (exc_info : bool)
| SendMessage (chat : chat_ref) (text : string) (parse_mode : option string)
              (reply_to : option Z) (result : outcome unit)
| Slept (seconds : Z)
| ThreadStarted
| PollingStarted.

(** The attributes of a [TradingBot] instance. *)
Record TradingBot : Type := mkBot {
  last_signal : option signal_data;
  is_running : bool
}.

(** [TradingBot.__init__] *)
Definition TradingBot_init : TradingBot :=
  {| last_signal := None; is_running := false |}.

Record World : Type := mkWorld {
  clock : nat;               (* calls made to the outside so far *)
  trace : list event;        (* oldest first *)
  trading_bot : TradingBot   (* the module-level instance *)
}.

Definition initial_world : World :=
  {| clock := 0; trace := []; trading_bot := TradingBot_init |}.

(** How [bot.infinity_polling] comes back: it returns (as it does once it
    has handled a Ctrl-C itself), raises, or lets a [KeyboardInterrupt]
    through. *)
Inductive polling_end : Type :=
| PollingReturned
| PollingRaised (e : exn)
| PollingInterrupted.

(** What a statement of the main thread comes to: its value, or a
    [KeyboardInterrupt] raised in its place. *)
Inductive signal (A : Type) : Type :=
| Normal (a : A)
| KeyboardInterrupt.
Arguments Normal {A} a.
Arguments KeyboardInterrupt {A}.

(** The collaborators.  The answer of a call to the outside may depend on
    when it is made: such fields take the clock. *)
Record Env : Type := mkEnv {
  os_getenv : string -> option string;
  new_TeleBot : option string -> outcome unit;   (* [telebot.TeleBot(token)] *)
  new_binance : outcome unit;                    (* [ccxt.binance({...})] *)
  fetch_ohlcv : nat -> string -> string -> Z -> outcome (list candle);
  supertrend : list float -> list float -> list float -> Z -> float ->
               outcome (option (list st_row));
  now_strftime : nat -> string -> string;
  send_result : nat -> chat_ref -> string -> outcome unit;
  infinity_polling : nat -> polling_end;
  ctrl_c : nat -> bool;           (* does Ctrl-C arrive as the main block
                                     comes to its statement of this number *)
  stop_requested : nat -> bool;   (* has the main thread called [stop] by now *)
  format_2f : float -> string;    (* the format spec [:.2f] *)
  str_float : float -> string     (* [str] of a float *)
}.

(** ** The monad *)

Definition M (A : Type) : Type := World -> outcome A * World.

Definition ret {A} (a : A) : M A := fun w => (Ret a, w).

Definition raise {A} (e : exn) : M A := fun w => (Raise e, w).

Definition bind {A B} (m : M A) (k : A -> M B) : M B :=
  fun w =>
    match m w with
    | (Ret a, w') => k a w'
    | (Raise e, w') => (Raise e, w')
    end.

(** [try: body  except Exception as e: handler e] *)
Definition try_except {A} (body : M A) (handler : exn -> M A) : M A :=
  fun w =>
    match body w with
    | (Ret a, w') => (Ret a, w')
    | (Raise e, w') => handler e w'
    end.

Declare Scope py_scope.
Delimit Scope py_scope with py.
Notation "x <- m ;; k" := (bind m (fun x => k))
  (at level 61, m at next level, right associativity) : py_scope.
Notation "m ;; k" := (bind m (fun _ => k))
  (at level 61, right associativity) : py_scope.
Local Open Scope py_scope.

Definition of_outcome {A} (r : outcome A) : M A := fun w => (r, w).

Definition emit (e : event) : M unit :=
  fun w => (Ret tt, {| clock := clock w; trace := trace w ++ [e];
                       trading_bot := trading_bot w |}).

(** Advance the clock and hand out its former value. *)
Definition tick : M nat :=
  fun w => (Ret (clock w), {| clock := S (clock w); trace := trace w;
                              trading_bot := trading_bot w |}).

Definition get_bot : M TradingBot := fun w => (Ret (trading_bot w), w).

Definition put_bot (b : TradingBot) : M unit :=
  fun w => (Ret tt, {| clock := clock w; trace := trace w; trading_bot := b |}).

Definition logger_info (msg : string) : M unit := emit (Logged INFO msg false).
Definition logger_warning (msg : string) : M unit := emit (Logged WARNING msg false).
Definition logger_error (msg : string) (exc_info : bool) : M unit :=
  emit (Logged ERROR msg exc_info).
Definition logger_critical (msg : string) (exc_info : bool) : M unit :=
  emit (Logged CRITICAL msg exc_info).

Definition time_sleep (seconds : Z) : M unit := emit (Slept seconds).

(** [seq.iloc[-1]] *)
Definition iloc_last {A} (rows : list A) : M A :=
  match rev rows with
  | [] => raise (mkExn IndexError "single positional indexer is out-of-bounds")
  | r :: _ => ret r
  end.
Arguments iloc_last : simpl never.

(** ** Settings (lines 19-23) *)

Definition SYMBOL : string := "BTC/USDT".
Definition TIMEFRAME : string := "15m".
Definition CHECK_INTERVAL : Z := 900.

Definition BUY : string := "BUY 🟢".
Definition SELL : string := "SELL 🔴".

(** [not s] for the result of [os.getenv]: true on [None] and on the empty
    string. *)
Definition py_not (s : option string) : bool :=
  match s with
  | None => true
  | Some "" => true
  | Some _ => false
  end.

Section Program.

Variable env : Env.

Definition TOKEN : option string := os_getenv env "TELEGRAM_TOKEN".
Definition CHAT_ID : option string := os_getenv env "TELEGRAM_CHAT_ID".

(** Lines 26-27. *)
Definition validate_environment : M unit :=
  if py_not TOKEN || py_not CHAT_ID
  then raise (mkExn ValueError "Не установлены TELEGRAM_TOKEN или TELEGRAM_CHAT_ID")
  else ret tt.

(** *** Calls to the collaborators *)

Definition exchange_fetch_ohlcv (symbol timeframe : string) (limit : Z)
  : M (list candle) :=
  now <- tick ;;
  of_outcome (fetch_ohlcv env now symbol timeframe limit).

Definition ta_supertrend (high low close : list float) (length : Z)
  (multiplier : float) : M (option (list st_row)) :=
  of_outcome (supertrend env high low close length multiplier).

Definition datetime_now_strftime (fmt : string) : M string :=
  now <- tick ;;
  ret (now_strftime env now fmt).

(** [bot.send_message(chat, text, parse_mode=...)] and, with [reply_to] set,
    [bot.reply_to(message, text, ...)].  The attempt is recorded together with
    what came of it. *)
Definition bot_send (chat : chat_ref) (text : string)
  (parse_mode : option string) (reply_to : option Z) : M unit :=
  now <- tick ;;
  let r := send_result env now chat text in
  emit (SendMessage chat text parse_mode reply_to r) ;;
  of_outcome r.

Definition bot_send_message (chat : chat_ref) (text : string)
  (parse_mode : option string) : M unit :=
  bot_send chat text parse_mode None.

Definition bot_reply_to (msg : message) (text : string)
  (parse_mode : option string) : M unit :=
  bot_send (ChatInt (chat_id msg)) text parse_mode (Some (message_id msg)).

(** *** [TradingBot.get_signal] (lines 41-87) *)

Definition get_signal_try : M (option signal_data) :=
  bars <- exchange_fetch_ohlcv SYMBOL TIMEFRAME 100 ;;
  let df := bars in   (* the frame has the rows of [bars] under six names *)
  match df with
  | [] =>
      logger_warning "Получены пустые данные с биржи" ;;
      ret None
  | _ :: _ =>
      st <- ta_supertrend (map c_high df) (map c_low df) (map c_close df)
                          10 3%float ;;
      match st with
      | None | Some [] =>
          logger_warning "Не удалось рассчитать SuperTrend" ;;
          ret None
      | Some frame =>
          last_row <- iloc_last frame ;;
          let last_direction := SUPERTd last_row in
          last_bar <- iloc_last df ;;
          let current_price := c_close last_bar in
          now <- datetime_now_strftime "%Y-%m-%d %H:%M:%S" ;;
          let signal_data :=
            {| direction := if PrimFloat.eqb last_direction 1%float
                            then BUY else SELL;
               price := current_price;
               timestamp := now |} in
          logger_info (fstring ["Сигнал: "; direction signal_data;
                                " по цене "; str_float env current_price]) ;;
          ret (Some signal_data)
      end
  end.

Definition get_signal_except (e : exn) : M (option signal_data) :=
  match exn_cls e with
  | NetworkError =>
      logger_error (fstring ["Ошибка сети при получении данных: "; str_exn e]) false ;;
      ret None
  | ExchangeError =>
      logger_error (fstring ["Ошибка биржи: "; str_exn e]) false ;;
      ret None
  | _ =>
      logger_error (fstring ["Неожиданная ошибка при получении сигнала: "; str_exn e]) true ;;
      ret None
  end.

Definition get_signal : M (option signal_data) :=
  try_except get_signal_try get_signal_except.

(** *** [TradingBot.format_signal_message] (lines 89-96) *)

Definition format_signal_message (signal_data : signal_data) : string :=
  fstring ["📊 <b>"; SYMBOL; "</b>"; nl;
           "⚡️ Сигнал: <b>"; direction signal_data; "</b>"; nl;
           "💰 Цена: <code>"; format_2f env (price signal_data); "</code> USDT"; nl;
           "🕐 Время: "; timestamp signal_data].

(** *** [TradingBot.auto_check] (lines 98-119) *)

(** The test of line 109. *)
Definition signal_changed (b : TradingBot) (current_signal : signal_data) : bool :=
  match last_signal b with
  | None => true
  | Some last => negb (String.eqb (direction current_signal) (direction last))
  end.

(** Lines 107-113: what the loop does with the result of an evaluation.  A
    signal is a dict of three keys, hence true in [if current_signal]. *)
Definition auto_check_track (current_signal : option signal_data) : M unit :=
  match current_signal with
  | Some current =>
      self <- get_bot ;;
      if signal_changed self current then
        let message := fstring ["🔔 <b>НОВЫЙ СИГНАЛ!</b>"; nl; nl;
                                format_signal_message current] in
        bot_send_message (ChatEnv CHAT_ID) message (Some "HTML") ;;
        self <- get_bot ;;
        put_bot {| last_signal := Some current; is_running := is_running self |} ;;
        logger_info (fstring ["Отправлено уведомление о новом сигнале: ";
                              direction current])
      else ret tt
  | None => ret tt
  end.

(** Lines 105-115: the body of the [try]. *)
Definition auto_check_try : M unit :=
  current_signal <- get_signal ;;
  auto_check_track current_signal ;;
  time_sleep CHECK_INTERVAL.

(** Lines 117-119. *)
Definition auto_check_except (e : exn) : M unit :=
  logger_error (fstring ["Ошибка в цикле auto_check: "; str_exn e]) true ;;
  time_sleep 60.

(** One turn of the [while] loop. *)
Definition auto_check_iteration : M unit :=
  try_except auto_check_try auto_check_except.

(** [TradingBot.stop] (lines 121-124) *)
Definition stop : M unit :=
  self <- get_bot ;;
  put_bot {| last_signal := last_signal self; is_running := false |} ;;
  logger_info "Автоматическая проверка остановлена".

(** The main thread runs beside the loop and may call [stop] at any moment;
    the loop only looks at the flag in its [while] test, so the call is
    placed just before the test that sees it. *)
Definition main_thread_interference : M unit :=
  fun w => if stop_requested env (clock w) then stop w else (Ret tt, w).

Inductive loop_end : Type :=
| LoopExited          (* the [while] test found the flag cleared *)
| LoopStillRunning.   (* the turns asked for are done and the loop goes on *)

(** [turns] turns of [while self.is_running]. *)
Fixpoint auto_check_loop (turns : nat) : M loop_end :=
  match turns with
  | O => ret LoopStillRunning
  | S turns' =>
      main_thread_interference ;;
      self <- get_bot ;;
      if is_running self
      then auto_check_iteration ;; auto_check_loop turns'
      else ret LoopExited
  end.

Definition auto_check (turns : nat) : M loop_end :=
  self <- get_bot ;;
  put_bot {| last_signal := last_signal self; is_running := true |} ;;
  logger_info "Автоматическая проверка запущена" ;;
  auto_check_loop turns.

(** *** Command handlers (lines 130-194) *)

Definition welcome_text : string :=
  fstring ["👋 <b>Добро пожаловать в торгового бота!</b>"; nl; nl;
           "📈 Отслеживаемая пара: <code>"; SYMBOL; "</code>"; nl;
           "⏱ Таймфрейм: <code>"; TIMEFRAME; "</code>"; nl;
           "📊 Индикатор: SuperTrend (10, 3.0)"; nl; nl;
           "<b>Доступные команды:</b>"; nl;
           "/status - текущий сигнал"; nl;
           "/info - информация о боте"; nl;
           "/help - справка"].

Definition start (msg : message) : M unit :=
  bot_reply_to msg welcome_text (Some "HTML") ;;
  logger_info (fstring ["Пользователь "; str_int (from_user_id msg);
                        " запустил бота"]).

Definition status_try (msg : message) : M unit :=
  bot_send_message (ChatInt (chat_id msg)) "⏳ Получаю данные..." None ;;
  signal_data <- get_signal ;;
  match signal_data with
  | Some s =>
      let response := format_signal_message s in
      bot_send_message (ChatInt (chat_id msg)) response (Some "HTML")
  | None =>
      bot_send_message (ChatInt (chat_id msg))
        "⚠️ Не удалось получить сигнал. Попробуйте позже." None
  end.

Definition status_except (msg : message) (e : exn) : M unit :=
  logger_error (fstring ["Ошибка в команде /status: "; str_exn e]) true ;;
  bot_send_message (ChatInt (chat_id msg))
    (fstring ["❌ Произошла ошибка: "; str_exn e]) None.

Definition status (msg : message) : M unit :=
  try_except (status_try msg) (status_except msg).

Definition NO_DATA : string := "Нет данных".

Definition info_text (b : TradingBot) : string :=
  fstring ["ℹ️ <b>Информация о боте</b>"; nl; nl;
           "Символ: <code>"; SYMBOL; "</code>"; nl;
           "Таймфрейм: <code>"; TIMEFRAME; "</code>"; nl;
           "Интервал проверки: <code>"; str_int (CHECK_INTERVAL / 60); " минут</code>"; nl;
           "Статус: "; (if is_running b then "🟢 Активен" else "🔴 Остановлен"); nl;
           "Последний сигнал: <code>";
           match last_signal b with
           | Some last => direction last
           | None => NO_DATA
           end;
           "</code>"].

Definition info (msg : message) : M unit :=
  b <- get_bot ;;
  bot_reply_to msg (info_text b) (Some "HTML").

Definition help_text : string :=
  fstring ["📖 <b>Справка</b>"; nl; nl;
           "Бот анализирует рынок криптовалют используя индикатор SuperTrend ";
           "и отправляет сигналы на покупку/продажу."; nl; nl;
           "<b>Как это работает:</b>"; nl;
           "• Бот проверяет рынок каждые 15 минут"; nl;
           "• При изменении сигнала вы получаете уведомление"; nl;
           "• 🟢 BUY - сигнал на покупку"; nl;
           "• 🔴 SELL - сигнал на продажу"; nl; nl;
           "<b>Команды:</b>"; nl;
           "/status - узнать текущий сигнал"; nl;
           "/info - информация о боте"; nl;
           "/help - эта справка"].

Definition help_command (msg : message) : M unit :=
  bot_reply_to msg help_text (Some "HTML").

(** The four commands the listener dispatches. *)
Inductive command : Type := CmdStart | CmdStatus | CmdInfo | CmdHelp.

Definition handler (c : command) : message -> M unit :=
  match c with
  | CmdStart => start
  | CmdStatus => status
  | CmdInfo => info
  | CmdHelp => help_command
  end.

(** *** The script (lines 19-34, 127, 197-225) *)

(** [telebot.TeleBot(TOKEN)] (line 30) and [ccxt.binance({...})] (lines
    31-34): the constructors of the two clients, which may refuse. *)
Definition telebot_TeleBot (token : option string) : M unit :=
  of_outcome (new_TeleBot env token).

Definition ccxt_binance : M unit := of_outcome (new_binance env).

(** The module down to the main block: the check of the settings, the two
    clients, the [TradingBot] instance of line 127.  Defining the class and
    registering the handlers leave no trace. *)
Definition module_init : M unit :=
  validate_environment ;;
  telebot_TeleBot TOKEN ;;
  ccxt_binance ;;
  put_bot TradingBot_init.

(** A statement of the main thread that runs to its end. *)
Definition statement {A} (m : M A) : M (signal A) :=
  a <- m ;; ret (Normal a).

(** The statement numbered [point] of the main block: when Ctrl-C arrives
    as the block comes to it, [KeyboardInterrupt] is raised in its place. *)
Definition interruptible {A} (point : nat) (m : M (signal A)) : M (signal A) :=
  fun w => if ctrl_c env point then (Ret KeyboardInterrupt, w) else m w.

(** One statement after the other; a [KeyboardInterrupt] or an exception of
    the first leaves the second out. *)
Definition and_then {A B} (m : M (signal A)) (k : M (signal B))
  : M (signal B) :=
  fun w =>
    match m w with
    | (Ret (Normal _), w') => k w'
    | (Ret KeyboardInterrupt, w') => (Ret KeyboardInterrupt, w')
    | (Raise e, w') => (Raise e, w')
    end.

Notation "m ;;; k" := (and_then m k)
  (at level 62, right associativity) : py_scope.

Definition bot_infinity_polling : M polling_end :=
  emit PollingStarted ;;
  now <- tick ;;
  ret (infinity_polling env now).

(** Line 214. *)
Definition main_polling : M (signal unit) :=
  ended <- bot_infinity_polling ;;
  match ended with
  | PollingReturned => ret (Normal tt)
  | PollingRaised e => raise e
  | PollingInterrupted => ret KeyboardInterrupt
  end.

(** Lines 199-214, statements 0 to 4 of the main block. *)
Definition main_try : M (signal unit) :=
  interruptible 0 (statement (logger_info "Запуск бота...")) ;;;
  interruptible 1 (statement (emit ThreadStarted)) ;;;
  interruptible 2
    (statement
       (bot_send_message (ChatEnv CHAT_ID)
          (fstring ["✅ <b>Бот запущен!</b>"; nl;
                    "Отслеживаю "; SYMBOL; " на таймфрейме "; TIMEFRAME])
          (Some "HTML"))) ;;;
  interruptible 3 (statement (logger_info "Бот успешно запущен")) ;;;
  interruptible 4 main_polling.

(** Lines 216-219, statements 5 to 7. *)
Definition main_keyboard_interrupt : M (signal unit) :=
  interruptible 5 (statement (logger_info "Получен сигнал остановки")) ;;;
  interruptible 6 (statement stop) ;;;
  interruptible 7
    (statement (bot_send_message (ChatEnv CHAT_ID) "🛑 Бот остановлен" None)).

(** Lines 220-225, statements 8 and 9.  The bare [except] of line 224 takes
    a [KeyboardInterrupt] as well. *)
Definition main_except (e : exn) : M (signal unit) :=
  interruptible 8
    (statement
       (logger_critical (fstring ["Критическая ошибка: "; str_exn e]) true)) ;;;
  (fun w =>
     if ctrl_c env 9 then (Ret (Normal tt), w)
     else statement
            (try_except
               (bot_send_message (ChatEnv CHAT_ID)
                  (fstring ["❌ Критическая ошибка: "; str_exn e]) None)
               (fun _ => ret tt)) w).

(** The [try] of line 198 with its two [except] clauses.  What leaves a
    clause is not caught by the other. *)
Definition main : M (signal unit) :=
  fun w =>
    match main_try w with
    | (Ret (Normal _), w') => (Ret (Normal tt), w')
    | (Ret KeyboardInterrupt, w') => main_keyboard_interrupt w'
    | (Raise e, w') => main_except e w'
    end.

(** The module from its first statement on, run as a script. *)
Definition script : M (signal unit) :=
  module_init ;;
  main.

End Program.

(** ** Reading a world *)

(** The world [w] after [calls] more calls to the outside and the events
    [evs], the bot object untouched. *)
Definition after (calls : nat) (evs : list event) (w : World) : World :=
  {| clock := calls + clock w; trace := trace w ++ evs;
     trading_bot := trading_bot w |}.

Definition is_log (e : event) : bool :=
  match e with Logged _ _ _ => true | _ => false end.

Definition is_send (e : event) : bool :=
  match e with SendMessage _ _ _ _ _ => true | _ => false end.

(** Calls of [bot.send_message] in a trace, failed ones included. *)
Definition sends (evs : list event) : list event := filter is_send evs.

(** The texts that reached a chat. *)
Fixpoint delivered (evs : list event) : list string :=
  match evs with
  | [] => []
  | SendMessage _ text _ _ (Ret _) :: rest => text :: delivered rest
  | _ :: rest => delivered rest
  end.

(** The arguments of [time.sleep], in order. *)
Fixpoint sleeps (evs : list event) : list Z :=
  match evs with
  | [] => []
  | Slept n :: rest => n :: sleeps rest
  | _ :: rest => sleeps rest
  end.

(** The announcement of line 110-111 for a signal. *)
Definition announcement (env : Env) (s : signal_data) : string :=
  fstring ["🔔 <b>НОВЫЙ СИГНАЛ!</b>"; nl; nl; format_signal_message env s].

Definition announcement_event (env : Env) (s : signal_data)
  (r : outcome unit) : event :=
  SendMessage (ChatEnv (CHAT_ID env)) (announcement env s) (Some "HTML") None r.

(** The world once the announcement of [s] has gone through (lines
    111-113). *)
Definition announced (env : Env) (s : signal_data) (w : World) : World :=
  {| clock := S (clock w);
     trace := trace w ++
              [announcement_event env s (Ret tt);
               Logged INFO (fstring ["Отправлено уведомление о новом сигнале: ";
                                     direction s]) false];
     trading_bot := {| last_signal := Some s;
                       is_running := is_running (trading_bot w) |} |}.

(** What the loop leaves behind when [e] escapes the [try] (lines 118-119). *)
Definition recovery (e : exn) : list event :=
  [Logged ERROR (fstring ["Ошибка в цикле auto_check: "; str_exn e]) true;
   Slept 60].



(** Whether the log record of an exception caught in [get_signal] carries the
    traceback: only the last [except] clause passes [exc_info=True]. *)
Definition with_traceback (e : exn) : bool :=
  match exn_cls e with
  | NetworkError | ExchangeError => false
  | _ => true
  end.

(** ** Feeding the tracker *)

(** The tracker of lines 107-113 on one evaluated signal after the other. *)
Fixpoint feed (env : Env) (signals : list signal_data) : M unit :=
  match signals with
  | [] => ret tt
  | s :: rest => auto_check_track env (Some s) ;; feed env rest
  end.

(** The signals of a sequence that open it or whose direction differs from
    the one evaluated just before; [prev] is the direction before the
    sequence, if any. *)
Fixpoint direction_changes (prev : option string) (signals : list signal_data)
  : list signal_data :=
  match signals with
  | [] => []
  | s :: rest =>
      let later := direction_changes (Some (direction s)) rest in
      match prev with
      | None => s :: later
      | Some d => if String.eqb (direction s) d then later else s :: later
      end
  end.

Definition absent_or_empty (s : option string) : Prop :=
  s = None \/ s = Some "".

(** The text a handler without a [try] replies with. *)
Definition reply_text (c : command) (b : TradingBot) : string :=
  match c with
  | CmdStart => welcome_text
  | CmdInfo => info_text b
  | CmdHelp => help_text
  | CmdStatus => ""
  end.

(** A reply to [msg] as [bot.reply_to] sends it. *)
Definition reply_event (msg : message) (text : string) (r : outcome unit)
  : event :=
  SendMessage (ChatInt (chat_id msg)) text (Some "HTML") (Some (message_id msg)) r.

(** The error reply of [/status] (lines 161-164). *)
Definition error_reply (msg : message) (e : exn) (r : outcome unit) : event :=
  SendMessage (ChatInt (chat_id msg))
    (fstring ["❌ Произошла ошибка: "; str_exn e]) None None r.

(** ** Concrete environments *)

Module Scenario.

Definition bar : candle :=
  mkCandle 1700000000000 42000%float 42100%float 41900%float 42050%float 12%float.

Definition row_up : st_row := mkStRow 41000%float 1%float 41000%float nan.
Definition row_down : st_row := mkStRow 43000%float (-1)%float nan 43000%float.

Definition timeout : exn := mkExn NetworkError "binance GET timed out".
Definition unreachable : exn := mkExn OtherException "Connection refused".

Definition secrets (name : string) : option string :=
  if String.eqb name "TELEGRAM_TOKEN" then Some "123:abc"
  else if String.eqb name "TELEGRAM_CHAT_ID" then Some "42"
  else None.

Definition no_chat_id (name : string) : option string :=
  if String.eqb name "TELEGRAM_TOKEN" then Some "123:abc" else None.

Definition row_nan : st_row := mkStRow nan nan nan nan.

Fixpoint has_colon (s : string) : bool :=
  match s with
  | EmptyString => false
  | String c rest => Ascii.eqb c ":" || has_colon rest
  end.

(** A [TeleBot] constructor that refuses a token without a colon. *)
Definition TeleBot_checks_token (token : option string) : outcome unit :=
  match token with
  | Some t =>
      if has_colon t then Ret tt
      else Raise (mkExn ValueError "Token must contain a colon")
  | None => Raise (mkExn OtherException "token is None")
  end.

Definition malformed_secrets (name : string) : option string :=
  if String.eqb name "TELEGRAM_TOKEN" then Some "abc"
  else if String.eqb name "TELEGRAM_CHAT_ID" then Some "42"
  else None.

(** An environment from its moving parts. *)
Definition make (getenv : string -> option string)
  (fetch : nat -> outcome (list candle))
  (frame : list st_row)
  (send : nat -> outcome unit) : Env :=
  {| os_getenv := getenv;
     new_TeleBot := TeleBot_checks_token;
     new_binance := Ret tt;
     fetch_ohlcv := fun now _ _ _ => fetch now;
     supertrend := fun _ _ _ _ _ => Ret (Some frame);
     now_strftime := fun _ _ => "2024-01-01 00:00:00";
     send_result := fun now _ _ => send now;
     infinity_polling := fun _ => PollingInterrupted;
     ctrl_c := fun _ => false;
     stop_requested := fun _ => false;
     format_2f := fun _ => "42050.00";
     str_float := fun _ => "42050.0" |}.

(** Everything works and the trend is up. *)
Definition calm : Env :=
  make secrets (fun _ => Ret [bar]) [row_down; row_up] (fun _ => Ret tt).

(** The trend has turned down. *)
Definition falling : Env :=
  make secrets (fun _ => Ret [bar]) [row_up; row_down] (fun _ => Ret tt).

(** The indicator has no direction for the last bar. *)
Definition undecided : Env :=
  make secrets (fun _ => Ret [bar]) [row_up; row_nan] (fun _ => Ret tt).

(** The exchange answers with no candles. *)
Definition no_candles : Env :=
  make secrets (fun _ => Ret []) [] (fun _ => Ret tt).

(** The exchange cannot be reached. *)
Definition exchange_down : Env :=
  make secrets (fun _ => Raise timeout) [] (fun _ => Ret tt).

(** Telegram cannot be reached. *)
Definition telegram_down : Env :=
  make secrets (fun _ => Ret [bar]) [row_down; row_up]
       (fun _ => Raise unreachable).

(** Telegram fails on the first announcement (the third call to the outside)
    and works afterwards. *)
Definition telegram_hiccup : Env :=
  make secrets (fun _ => Ret [bar]) [row_down; row_up]
       (fun now => if Nat.eqb now 2 then Raise unreachable else Ret tt).

Definition unconfigured : Env :=
  make no_chat_id (fun _ => Ret [bar]) [row_down; row_up] (fun _ => Ret tt).

(** Both settings are there, but the token is not one Telegram could have
    issued. *)
Definition malformed_token : Env :=
  make malformed_secrets (fun _ => Ret [bar]) [row_down; row_up]
       (fun _ => Ret tt).

Definition up : signal_data := mkSignal BUY 42050%float "2024-01-01 00:00:00".
Definition up_again : signal_data := mkSignal BUY 42070%float "2024-01-01 00:15:00".
Definition down : signal_data := mkSignal SELL 41800%float "2024-01-01 00:30:00".

Definition request : message :=
  {| message_id := 7; chat_id := 1001; from_user_id := 5 |}.

(** The indicator has nothing to say about the candles. *)
Definition no_trend : Env :=
  make secrets (fun _ => Ret [bar]) [] (fun _ => Ret tt).

Definition bad_input : exn :=
  mkExn ValueError "cannot convert float NaN to integer".

(** The indicator library raises. *)
Definition indicator_broken : Env :=
  {| os_getenv := secrets;
     new_TeleBot := TeleBot_checks_token;
     new_binance := Ret tt;
     fetch_ohlcv := fun _ _ _ _ => Ret [bar];
     supertrend := fun _ _ _ _ _ => Raise bad_input;
     now_strftime := fun _ _ => "2024-01-01 00:00:00";
     send_result := fun _ _ _ => Ret tt;
     infinity_polling := fun _ => PollingInterrupted;
     ctrl_c := fun _ => false;
     stop_requested := fun _ => false;
     format_2f := fun _ => "42050.00";
     str_float := fun _ => "42050.0" |}.

(** The main thread has asked the loop to stop. *)
Definition stopping : Env :=
  {| os_getenv := secrets;
     new_TeleBot := TeleBot_checks_token;
     new_binance := Ret tt;
     fetch_ohlcv := fun _ _ _ _ => Ret [bar];
     supertrend := fun _ _ _ _ _ => Ret (Some [row_down; row_up]);
     now_strftime := fun _ _ => "2024-01-01 00:00:00";
     send_result := fun _ _ _ => Ret tt;
     infinity_polling := fun _ => PollingInterrupted;
     ctrl_c := fun _ => false;
     stop_requested := fun _ => true;
     format_2f := fun _ => "42050.00";
     str_float := fun _ => "42050.0" |}.

Definition listener_crash : exn := mkExn OtherException "Bad Gateway".

(** The listener gives up with an exception. *)
Definition polling_breaks : Env :=
  {| os_getenv := secrets;
     new_TeleBot := TeleBot_checks_token;
     new_binance := Ret tt;
     fetch_ohlcv := fun _ _ _ _ => Ret [bar];
     supertrend := fun _ _ _ _ _ => Ret (Some [row_down; row_up]);
     now_strftime := fun _ _ => "2024-01-01 00:00:00";
     send_result := fun _ _ _ => Ret tt;
     infinity_polling := fun _ => PollingRaised listener_crash;
     ctrl_c := fun _ => false;
     stop_requested := fun _ => false;
     format_2f := fun _ => "42050.00";
     str_float := fun _ => "42050.0" |}.

(** Ctrl-C arrives as the main block comes to its start-up notification. *)
Definition ctrl_c_at_startup : Env :=
  {| os_getenv := secrets;
     new_TeleBot := TeleBot_checks_token;
     new_binance := Ret tt;
     fetch_ohlcv := fun _ _ _ _ => Ret [bar];
     supertrend := fun _ _ _ _ _ => Ret (Some [row_down; row_up]);
     now_strftime := fun _ _ => "2024-01-01 00:00:00";
     send_result := fun _ _ _ => Ret tt;
     infinity_polling := fun _ => PollingReturned;
     ctrl_c := fun point => Nat.eqb point 2;
     stop_requested := fun _ => false;
     format_2f := fun _ => "42050.00";
     str_float := fun _ => "42050.0" |}.

(** The listener handles a Ctrl-C itself and returns. *)
Definition polling_returns : Env :=
  {| os_getenv := secrets;
     new_TeleBot := TeleBot_checks_token;
     new_binance := Ret tt;
     fetch_ohlcv := fun _ _ _ _ => Ret [bar];
     supertrend := fun _ _ _ _ _ => Ret (Some [row_down; row_up]);
     now_strftime := fun _ _ => "2024-01-01 00:00:00";
     send_result := fun _ _ _ => Ret tt;
     infinity_polling := fun _ => PollingReturned;
     ctrl_c := fun _ => false;
     stop_requested := fun _ => false;
     format_2f := fun _ => "42050.00";
     str_float := fun _ => "42050.0" |}.

End Scenario.

(** ** Further vocabulary for traces and runs *)

(** [e], if it is a send, goes to [chat]. *)
Definition addressed_to (chat : chat_ref) (e : event) : Prop :=
  match e with
  | SendMessage c _ _ _ _ => c = chat
  | _ => True
  end.

(** No signal of the sequence has the direction of the one before it; [prev]
    is the direction before the sequence, if any. *)
Fixpoint alternating (prev : option string) (signals : list signal_data)
  : Prop :=
  match signals with
  | [] => True
  | s :: rest =>
      match prev with
      | None => True
      | Some d => direction s <> d
      end /\ alternating (Some (direction s)) rest
  end.

(** The signal stored after each of [signals] has been stored in turn. *)
Definition last_stored (init : option signal_data)
  (signals : list signal_data) : option signal_data :=
  fold_left (fun _ s => Some s) signals init.

(** The stored signal, if any, carries one of the two directions
    [get_signal] writes. *)
Definition known_direction (b : TradingBot) : Prop :=
  match last_signal b with
  | None => True
  | Some s => direction s = BUY \/ direction s = SELL
  end.

(** The text of the notification of lines 206-211. *)
Definition startup_text : string :=
  fstring ["✅ <b>Бот запущен!</b>"; nl;
           "Отслеживаю "; SYMBOL; " на таймфрейме "; TIMEFRAME].


(** Unfold the monad and run it as far as it goes. *)
Ltac step_monad :=
  unfold bind, ret, raise, of_outcome, tick, get_bot, put_bot,
         logger_info, logger_warning, logger_error, logger_critical,
         time_sleep, emit; cbn.

(** ** Lemmas on the monad and on strings *)

Lemma append_assoc (a b c : string) :
  String.append (String.append a b) c = String.append a (String.append b c).
Proof.
  induction a as [|ch a IH]; simpl; [reflexivity | now rewrite IH].
Qed.

Lemma fstring_cons (p : string) (rest : list string) :
  fstring (p :: rest) = String.append p (fstring rest).
Proof. reflexivity. Qed.

Lemma fstring_app (l1 l2 : list string) :
  fstring (l1 ++ l2) = String.append (fstring l1) (fstring l2).
Proof.
  induction l1 as [|p l1 IH]; [reflexivity |].
  cbn [app]. now rewrite !fstring_cons, IH, append_assoc.
Qed.

(** A run of pieces of an f-string occurs in it. *)
Lemma fstring_contains (l1 mid l2 : list string) :
  Contains (fstring (l1 ++ mid ++ l2)) (fstring mid).
Proof.
  exists (fstring l1), (fstring l2).
  now rewrite !fstring_app.
Qed.

(** A piece of an f-string occurs in it. *)
Lemma fstring_contains_piece (l1 : list string) (s : string) (l2 : list string) :
  Contains (fstring (l1 ++ s :: l2)) s.
Proof.
  exists (fstring l1), (fstring l2).
  now rewrite fstring_app, fstring_cons.
Qed.

Lemma iloc_last_snoc {A} (front : list A) (row : A) :
  iloc_last (front ++ [row]) = ret row.
Proof.
  unfold iloc_last. now rewrite rev_app_distr.
Qed.

Lemma nonempty_snoc {A} (x : A) (l : list A) :
  exists front row, x :: l = front ++ [row].
Proof.
  destruct (exists_last (l := x :: l)) as (front & row & E); [discriminate |].
  now exists front, row.
Qed.

(** ** [get_signal] *)

(** The evaluator never raises, never touches the bot object and leaves
    nothing but log records in the trace. *)
Lemma get_signal_frame (env : Env) (w : World) :
  exists r calls logs,
    get_signal env w = (Ret r, after calls logs w) /\
    forallb is_log logs = true.
Proof.
  unfold get_signal, try_except, get_signal_try, exchange_fetch_ohlcv.
  step_monad.
  destruct (fetch_ohlcv env (clock w) SYMBOL TIMEFRAME 100) as [[|bar bars]|e].
  - eexists _, 1, [_]. split; reflexivity.
  - unfold ta_supertrend; step_monad.
    destruct (supertrend env _ _ _ _ _) as [[[|row frame]|]|e].
    + eexists _, 1, [_]. split; reflexivity.
    + destruct (nonempty_snoc row frame) as (f1 & r1 & ->).
      destruct (nonempty_snoc bar bars) as (f2 & r2 & ->).
      rewrite !iloc_last_snoc. unfold datetime_now_strftime; step_monad.
      eexists _, 2, [_]. split; reflexivity.
    + eexists _, 1, [_]. split; reflexivity.
    + unfold get_signal_except.
      destruct (exn_cls e); step_monad; eexists _, 1, [_]; split; reflexivity.
  - unfold get_signal_except.
    destruct (exn_cls e); step_monad; eexists _, 1, [_]; split; reflexivity.
Qed.

(** C3.  When the exchange hands back no candles, [get_signal] returns
    [None] without raising, and what it leaves behind is one warning in the
    log. *)
Theorem get_signal_empty_candles (env : Env) (w : World) :
  fetch_ohlcv env (clock w) SYMBOL TIMEFRAME 100 = Ret [] ->
  get_signal env w =
    (Ret None,
     after 1 [Logged WARNING "Получены пустые данные с биржи" false] w).
Proof.
  intros Hfetch.
  unfold get_signal, try_except, get_signal_try, exchange_fetch_ohlcv.
  step_monad. now rewrite Hfetch.
Qed.

Lemma get_signal_empty_candles_witness :
  get_signal Scenario.no_candles initial_world =
    (Ret None,
     after 1 [Logged WARNING "Получены пустые данные с биржи" false]
           initial_world).
Proof.
  apply (get_signal_empty_candles Scenario.no_candles initial_world).
  reflexivity.
Defined.

(** C4.  When fetching the candles raises a network or an exchange error,
    [get_signal] returns [None]: the error does not reach the caller, and it
    is logged once, at level ERROR, with the text of the error in the
    record. *)
Theorem get_signal_transport_failure (env : Env) (w : World) (e : exn) :
  fetch_ohlcv env (clock w) SYMBOL TIMEFRAME 100 = Raise e ->
  exn_cls e = NetworkError \/ exn_cls e = ExchangeError ->
  exists msg,
    get_signal env w = (Ret None, after 1 [Logged ERROR msg false] w) /\
    Contains msg (str_exn e).
Proof.
  intros Hfetch Hcls.
  unfold get_signal, try_except, get_signal_try, exchange_fetch_ohlcv.
  step_monad. rewrite Hfetch. unfold get_signal_except.
  destruct Hcls as [-> | ->]; step_monad; eexists; (split; [reflexivity |]).
  - apply (fstring_contains_piece ["Ошибка сети при получении данных: "]).
  - apply (fstring_contains_piece ["Ошибка биржи: "]).
Qed.

Lemma get_signal_transport_failure_witness :
  exists msg,
    get_signal Scenario.exchange_down initial_world =
      (Ret None, after 1 [Logged ERROR msg false] initial_world) /\
    Contains msg "binance GET timed out".
Proof.
  apply (get_signal_transport_failure Scenario.exchange_down initial_world
           Scenario.timeout).
  - reflexivity.
  - left; reflexivity.
Defined.

(** C10.  Whatever the indicator reports for the last bar, [get_signal]
    says BUY exactly when that value equals 1 and SELL for every other value,
    -1 and NaN among them. *)
Theorem get_signal_direction (env : Env) (w : World) (bars : list candle)
  (frame : list st_row) (row : st_row) :
  fetch_ohlcv env (clock w) SYMBOL TIMEFRAME 100 = Ret bars ->
  bars <> [] ->
  supertrend env (map c_high bars) (map c_low bars) (map c_close bars)
             10 3%float = Ret (Some (frame ++ [row])) ->
  exists s w',
    get_signal env w = (Ret (Some s), w') /\
    (direction s = BUY <-> PrimFloat.eqb (SUPERTd row) 1%float = true) /\
    (direction s = SELL <-> PrimFloat.eqb (SUPERTd row) 1%float = false) /\
    (SUPERTd row = (-1)%float \/ SUPERTd row = nan -> direction s = SELL).
Proof.
  intros Hfetch Hbars Hst.
  unfold get_signal, try_except, get_signal_try, exchange_fetch_ohlcv.
  step_monad. rewrite Hfetch.
  destruct bars as [|b bars]; [contradiction |].
  unfold ta_supertrend; step_monad. cbn in Hst. rewrite Hst.
  assert (Hframe : exists r0 f0, frame ++ [row] = r0 :: f0)
    by (destruct frame; simpl; eauto).
  destruct Hframe as (r0 & f0 & Hframe). rewrite Hframe, <- Hframe.
  destruct (nonempty_snoc b bars) as (front & lastbar & ->).
  rewrite !iloc_last_snoc. unfold datetime_now_strftime; step_monad.
  eexists _, _. split; [reflexivity |]. cbn.
  destruct (PrimFloat.eqb (SUPERTd row) 1%float) eqn:E.
  - repeat split; try discriminate; auto.
    intros [H | H]; rewrite H in E; discriminate E.
  - repeat split; try discriminate; auto.
Qed.

Lemma get_signal_direction_witness :
  exists s w',
    get_signal Scenario.falling initial_world = (Ret (Some s), w') /\
    (direction s = BUY <-> PrimFloat.eqb (-1)%float 1%float = true) /\
    (direction s = SELL <-> PrimFloat.eqb (-1)%float 1%float = false) /\
    ((-1)%float = (-1)%float \/ (-1)%float = nan -> direction s = SELL).
Proof.
  apply (get_signal_direction Scenario.falling initial_world [Scenario.bar]
           [Scenario.row_up] Scenario.row_down).
  - reflexivity.
  - discriminate.
  - reflexivity.
Defined.

(** ** Reading traces *)

Lemma sends_app (a b : list event) : sends (a ++ b) = sends a ++ sends b.
Proof. apply filter_app. Qed.

Lemma sleeps_app (a b : list event) : sleeps (a ++ b) = sleeps a ++ sleeps b.
Proof.
  induction a as [|[] a IH]; simpl; try assumption; [reflexivity |].
  now rewrite IH.
Qed.

Lemma delivered_app (a b : list event) :
  delivered (a ++ b) = delivered a ++ delivered b.
Proof.
  induction a as [|[| ? ? ? ? [] | | |] a IH]; simpl; try assumption;
    [reflexivity |]. now rewrite IH.
Qed.

Lemma logs_no_sends (logs : list event) :
  forallb is_log logs = true -> sends logs = [].
Proof.
  induction logs as [|[] logs IH]; simpl; try discriminate; auto.
Qed.

Lemma logs_no_sleeps (logs : list event) :
  forallb is_log logs = true -> sleeps logs = [].
Proof.
  induction logs as [|[] logs IH]; simpl; try discriminate; auto.
Qed.

(** ** The tracker (lines 107-113) *)

Lemma signal_changed_iff (b : TradingBot) (s : signal_data) :
  signal_changed b s = true <->
  last_signal b = None \/
  exists last, last_signal b = Some last /\ direction s <> direction last.
Proof.
  unfold signal_changed. destruct (last_signal b) as [last|].
  - rewrite negb_true_iff, String.eqb_neq. split.
    + intros H. right. now exists last.
    + intros [H | (l & [= <-] & H)]; [discriminate | assumption].
  - split; auto.
Qed.

Lemma track_same_direction (env : Env) (s : signal_data) (w : World) :
  signal_changed (trading_bot w) s = false ->
  auto_check_track env (Some s) w = (Ret tt, w).
Proof.
  intros H. unfold auto_check_track. step_monad. now rewrite H.
Qed.

Lemma track_announced (env : Env) (s : signal_data) (w : World) :
  signal_changed (trading_bot w) s = true ->
  send_result env (clock w) (ChatEnv (CHAT_ID env)) (announcement env s) = Ret tt ->
  auto_check_track env (Some s) w = (Ret tt, announced env s w).
Proof.
  intros H Hsend.
  unfold auto_check_track, bot_send_message, bot_send. step_monad.
  rewrite H. fold (announcement env s). rewrite Hsend. cbn.
  unfold announced, announcement_event. now rewrite <- app_assoc.
Qed.

Lemma track_send_failed (env : Env) (s : signal_data) (w : World) (e : exn) :
  signal_changed (trading_bot w) s = true ->
  send_result env (clock w) (ChatEnv (CHAT_ID env)) (announcement env s) = Raise e ->
  auto_check_track env (Some s) w =
    (Raise e, after 1 [announcement_event env s (Raise e)] w).
Proof.
  intros H Hsend.
  unfold auto_check_track, bot_send_message, bot_send. step_monad.
  rewrite H. fold (announcement env s). now rewrite Hsend.
Qed.

(** ** One turn of the loop *)

Lemma iteration_no_signal (env : Env) (w w1 : World) :
  get_signal env w = (Ret None, w1) ->
  auto_check_iteration env w = (Ret tt, after 0 [Slept CHECK_INTERVAL] w1).
Proof.
  intros H. unfold auto_check_iteration, try_except, auto_check_try.
  step_monad. now rewrite H.
Qed.

Lemma iteration_same_direction (env : Env) (w w1 : World) (s : signal_data) :
  get_signal env w = (Ret (Some s), w1) ->
  signal_changed (trading_bot w1) s = false ->
  auto_check_iteration env w = (Ret tt, after 0 [Slept CHECK_INTERVAL] w1).
Proof.
  intros H Hsame. unfold auto_check_iteration, try_except, auto_check_try.
  unfold bind at 1 2. rewrite H.
  now rewrite (track_same_direction env s w1 Hsame).
Qed.

Lemma iteration_announced (env : Env) (w w1 : World) (s : signal_data) :
  get_signal env w = (Ret (Some s), w1) ->
  signal_changed (trading_bot w1) s = true ->
  send_result env (clock w1) (ChatEnv (CHAT_ID env)) (announcement env s) = Ret tt ->
  auto_check_iteration env w =
    (Ret tt, after 0 [Slept CHECK_INTERVAL] (announced env s w1)).
Proof.
  intros H Hch Hsend. unfold auto_check_iteration, try_except, auto_check_try.
  unfold bind at 1 2. rewrite H.
  now rewrite (track_announced env s w1 Hch Hsend).
Qed.

Lemma iteration_send_failed (env : Env) (w w1 : World) (s : signal_data)
  (e : exn) :
  get_signal env w = (Ret (Some s), w1) ->
  signal_changed (trading_bot w1) s = true ->
  send_result env (clock w1) (ChatEnv (CHAT_ID env)) (announcement env s) = Raise e ->
  auto_check_iteration env w =
    (Ret tt, after 1 (announcement_event env s (Raise e) :: recovery e) w1).
Proof.
  intros H Hch Hsend. unfold auto_check_iteration, try_except, auto_check_try.
  unfold bind at 1 2. rewrite H.
  rewrite (track_send_failed env s w1 e Hch Hsend).
  unfold auto_check_except. step_monad. unfold after, recovery; cbn.
  now rewrite <- !app_assoc.
Qed.

Lemma get_signal_inv (env : Env) (w w1 : World) (r : outcome (option signal_data)) :
  get_signal env w = (r, w1) ->
  exists calls logs,
    w1 = after calls logs w /\ forallb is_log logs = true /\
    exists v, r = Ret v.
Proof.
  intros H. destruct (get_signal_frame env w) as (v & calls & logs & E & Hlogs).
  rewrite E in H. injection H as <- <-. eauto 6.
Qed.

Lemma signal_changed_direction (b : TradingBot) (s s' : signal_data) :
  direction s' = direction s -> signal_changed b s' = signal_changed b s.
Proof.
  intros H. unfold signal_changed. now rewrite H.
Qed.

(** With Telegram reachable, feeding a sequence delivers the announcements of
    its direction changes, in order, and nothing else. *)
Lemma feed_delivers (env : Env) (signals : list signal_data) :
  (forall now chat text, send_result env now chat text = Ret tt) ->
  forall w, exists w',
    feed env signals w = (Ret tt, w') /\
    delivered (trace w') =
      delivered (trace w) ++
      map (announcement env)
          (direction_changes
             (option_map direction (last_signal (trading_bot w))) signals).
Proof.
  intros Hsend.
  induction signals as [|s rest IH]; intros w.
  - exists w. split; [reflexivity |]. cbn. now rewrite app_nil_r.
  - cbn [feed]. unfold bind at 1.
    destruct (signal_changed (trading_bot w) s) eqn:Hch.
    + rewrite (track_announced env s w Hch (Hsend _ _ _)).
      destruct (IH (announced env s w)) as (w' & Hfeed & Hdel).
      exists w'. split; [exact Hfeed |].
      rewrite Hdel. cbn [announced trace trading_bot last_signal option_map].
      rewrite delivered_app, <- app_assoc. f_equal.
      unfold signal_changed in Hch. cbn [direction_changes].
      destruct (last_signal (trading_bot w)) as [last|]; cbn [option_map].
      * apply negb_true_iff in Hch. now rewrite Hch.
      * reflexivity.
    + rewrite (track_same_direction env s w Hch).
      destruct (IH w) as (w' & Hfeed & Hdel).
      exists w'. split; [exact Hfeed |].
      rewrite Hdel. f_equal. f_equal.
      unfold signal_changed in Hch. cbn [direction_changes].
      destruct (last_signal (trading_bot w)) as [last|]; [| discriminate].
      cbn [option_map]. apply negb_false_iff in Hch. rewrite Hch.
      apply String.eqb_eq in Hch. now rewrite Hch.
Qed.

(** C1.  The tracker calls [bot.send_message] for an evaluated signal if and
    only if no signal is stored or the stored one has another direction, and
    then once.  Fed a sequence of signals with Telegram reachable, it
    therefore announces the first signal when nothing was stored before, each
    signal whose direction differs from the one before it, and none that
    repeats the direction. *)
Theorem notification_iff_direction_changed (env : Env) :
  (forall (w : World) (s : signal_data),
     (signal_changed (trading_bot w) s = true <->
      last_signal (trading_bot w) = None \/
      exists last, last_signal (trading_bot w) = Some last /\
                   direction s <> direction last) /\
     exists r w' delta,
       auto_check_track env (Some s) w = (r, w') /\
       trace w' = trace w ++ delta /\
       sends delta =
         if signal_changed (trading_bot w) s
         then [announcement_event env s
                 (send_result env (clock w) (ChatEnv (CHAT_ID env))
                              (announcement env s))]
         else []) /\
  (forall (signals : list signal_data) (w : World),
     (forall now chat text, send_result env now chat text = Ret tt) ->
     exists w',
       feed env signals w = (Ret tt, w') /\
       delivered (trace w') =
         delivered (trace w) ++
         map (announcement env)
             (direction_changes
                (option_map direction (last_signal (trading_bot w)))
                signals)).
Proof.
  split.
  - intros w s. split; [apply signal_changed_iff |].
    destruct (signal_changed (trading_bot w) s) eqn:Hch.
    + destruct (send_result env (clock w) (ChatEnv (CHAT_ID env))
                            (announcement env s)) as [[]|e] eqn:Hsend.
      * rewrite (track_announced env s w Hch Hsend).
        eexists _, _, _. split; [reflexivity |]. split; reflexivity.
      * rewrite (track_send_failed env s w e Hch Hsend).
        eexists _, _, _. split; [reflexivity |]. split; reflexivity.
    + rewrite (track_same_direction env s w Hch).
      exists (Ret tt), w, []. rewrite app_nil_r. auto.
  - intros signals w Hsend. now apply feed_delivers.
Qed.

Lemma notification_iff_direction_changed_witness :
  exists w',
    feed Scenario.calm [Scenario.up; Scenario.up_again; Scenario.down]
         initial_world = (Ret tt, w') /\
    delivered (trace w') =
      delivered (trace initial_world) ++
      map (announcement Scenario.calm)
          (direction_changes None
             [Scenario.up; Scenario.up_again; Scenario.down]).
Proof.
  destruct (notification_iff_direction_changed Scenario.calm) as [_ Hseq].
  apply (Hseq [Scenario.up; Scenario.up_again; Scenario.down] initial_world).
  reflexivity.
Defined.

(** C5.  When the evaluation yields no signal, the turn of the loop changes
    nothing in the bot object, [last_signal] included, and sends nothing. *)
Theorem no_signal_no_effect (env : Env) (w w1 : World) :
  get_signal env w = (Ret None, w1) ->
  auto_check_track env None w1 = (Ret tt, w1) /\
  exists w',
    auto_check_iteration env w = (Ret tt, w') /\
    trading_bot w' = trading_bot w /\
    exists delta, trace w' = trace w ++ delta /\ sends delta = [].
Proof.
  intros H. split; [reflexivity |].
  rewrite (iteration_no_signal env w w1 H).
  destruct (get_signal_inv env w w1 _ H) as (calls & logs & -> & Hlogs & _).
  eexists. split; [reflexivity |]. split; [reflexivity |].
  exists (logs ++ [Slept CHECK_INTERVAL]). split.
  - cbn. now rewrite app_assoc.
  - rewrite sends_app, (logs_no_sends logs Hlogs). reflexivity.
Qed.

Lemma no_signal_no_effect_witness :
  auto_check_track Scenario.no_candles None
    (snd (get_signal Scenario.no_candles initial_world)) =
    (Ret tt, snd (get_signal Scenario.no_candles initial_world)) /\
  exists w',
    auto_check_iteration Scenario.no_candles initial_world = (Ret tt, w') /\
    trading_bot w' = trading_bot initial_world /\
    exists delta, trace w' = trace initial_world ++ delta /\ sends delta = [].
Proof.
  apply (no_signal_no_effect Scenario.no_candles initial_world).
  reflexivity.
Defined.

(** C9.  When sending the announcement fails, the turn ends with the bot
    object as it was: [last_signal] is assigned only after the send.  A later
    turn that evaluates the same direction and gets its send through
    therefore announces it and stores it. *)
Theorem failed_send_keeps_last_signal (env : Env) (w w1 : World)
  (s : signal_data) (e : exn) :
  get_signal env w = (Ret (Some s), w1) ->
  signal_changed (trading_bot w) s = true ->
  send_result env (clock w1) (ChatEnv (CHAT_ID env)) (announcement env s) = Raise e ->
  exists w2,
    auto_check_iteration env w = (Ret tt, w2) /\
    trading_bot w2 = trading_bot w /\
    forall (s' : signal_data) (w3 : World),
      get_signal env w2 = (Ret (Some s'), w3) ->
      direction s' = direction s ->
      send_result env (clock w3) (ChatEnv (CHAT_ID env)) (announcement env s') = Ret tt ->
      exists w4 delta,
        auto_check_iteration env w2 = (Ret tt, w4) /\
        last_signal (trading_bot w4) = Some s' /\
        trace w4 = trace w2 ++ delta /\
        delivered delta = [announcement env s'].
Proof.
  intros Hsig Hch Hsend.
  destruct (get_signal_inv env w w1 _ Hsig) as (calls & logs & Hw1 & _ & _).
  assert (Hbot1 : trading_bot w1 = trading_bot w) by (now subst w1).
  rewrite <- Hbot1 in Hch.
  rewrite (iteration_send_failed env w w1 s e Hsig Hch Hsend).
  eexists. split; [reflexivity |]. split; [exact Hbot1 |].
  intros s' w3 Hsig' Hdir Hsend'.
  destruct (get_signal_inv env _ w3 _ Hsig') as (calls' & logs' & Hw3 & Hlogs' & _).
  assert (Hch' : signal_changed (trading_bot w3) s' = true).
  { rewrite (signal_changed_direction _ s s' Hdir). now subst w3. }
  rewrite (iteration_announced env _ w3 s' Hsig' Hch' Hsend').
  eexists _, (logs' ++ [announcement_event env s' (Ret tt);
                        Logged INFO _ false; Slept CHECK_INTERVAL]).
  split; [reflexivity |]. split; [reflexivity |]. split.
  - subst w3. cbn. now rewrite <- !app_assoc.
  - rewrite delivered_app.
    assert (Hnone : delivered logs' = []).
    { clear - Hlogs'. induction logs' as [|[] l IH]; simpl in *;
        try discriminate; auto. }
    now rewrite Hnone.
Qed.

Lemma failed_send_keeps_last_signal_witness :
  exists w2,
    auto_check_iteration Scenario.telegram_hiccup initial_world = (Ret tt, w2) /\
    trading_bot w2 = trading_bot initial_world /\
    forall (s' : signal_data) (w3 : World),
      get_signal Scenario.telegram_hiccup w2 = (Ret (Some s'), w3) ->
      direction s' = direction Scenario.up ->
      send_result Scenario.telegram_hiccup (clock w3)
        (ChatEnv (CHAT_ID Scenario.telegram_hiccup))
        (announcement Scenario.telegram_hiccup s') = Ret tt ->
      exists w4 delta,
        auto_check_iteration Scenario.telegram_hiccup w2 = (Ret tt, w4) /\
        last_signal (trading_bot w4) = Some s' /\
        trace w4 = trace w2 ++ delta /\
        delivered delta = [announcement Scenario.telegram_hiccup s'].
Proof.
  apply (failed_send_keeps_last_signal Scenario.telegram_hiccup initial_world
           (snd (get_signal Scenario.telegram_hiccup initial_world))
           Scenario.up Scenario.unreachable).
  - reflexivity.
  - reflexivity.
  - reflexivity.
Defined.

(** ** The loop *)









(** ** Start-up *)

Lemma py_not_iff (s : option string) :
  py_not s = true <-> absent_or_empty s.
Proof.
  unfold absent_or_empty.
  destruct s as [[|c s]|]; simpl; split; auto; try discriminate.
  intros [H | H]; discriminate H.
Qed.

(** What the module does before its main block, and what it leaves to the
    statements that follow. *)
Lemma module_init_cases (env : Env) (w : World) :
  module_init env w =
    if py_not (TOKEN env) || py_not (CHAT_ID env)
    then (Raise (mkExn ValueError
                   "Не установлены TELEGRAM_TOKEN или TELEGRAM_CHAT_ID"), w)
    else match new_TeleBot env (TOKEN env) with
         | Raise e => (Raise e, w)
         | Ret _ =>
             match new_binance env with
             | Raise e => (Raise e, w)
             | Ret _ =>
                 (Ret tt, {| clock := clock w; trace := trace w;
                             trading_bot := TradingBot_init |})
             end
         end.
Proof.
  unfold module_init, validate_environment, telebot_TeleBot, ccxt_binance.
  destruct (py_not (TOKEN env) || py_not (CHAT_ID env)); [reflexivity |].
  step_monad.
  destruct (new_TeleBot env (TOKEN env)) as [[]|e]; [| reflexivity].
  destruct (new_binance env) as [[]|e]; reflexivity.
Qed.

(** C7 as stated fails in its second half: with both settings present the
    start-up need not go on.  A token that is there but malformed passes the
    check of lines 26-27 and is refused by the [TeleBot] constructor of line
    30, before anything is logged or started. *)
Lemma present_but_malformed_token_stops_startup :
  py_not (TOKEN Scenario.malformed_token) = false /\
  py_not (CHAT_ID Scenario.malformed_token) = false /\
  module_init Scenario.malformed_token initial_world =
    (Raise (mkExn ValueError "Token must contain a colon"), initial_world).
Proof. repeat split. Qed.

(** C7, amended.  With TELEGRAM_TOKEN or TELEGRAM_CHAT_ID unset or empty the
    module raises ValueError at its check: no client has been built, nothing
    is logged, sent or started, and whatever follows in the module ([rest])
    does not run.  With both set the check passes; what follows then runs if
    and only if the constructors of the two clients do not raise, and when
    one does the module ends with its exception, again before anything that
    follows. *)
Theorem startup_requires_secrets (env : Env) (w : World) (A : Type)
  (rest : M A) :
  (absent_or_empty (TOKEN env) \/ absent_or_empty (CHAT_ID env) ->
   (module_init env ;; rest) w =
     (Raise (mkExn ValueError
               "Не установлены TELEGRAM_TOKEN или TELEGRAM_CHAT_ID"), w)) /\
  (~ absent_or_empty (TOKEN env) -> ~ absent_or_empty (CHAT_ID env) ->
   validate_environment env w = (Ret tt, w) /\
   (module_init env ;; rest) w =
     match new_TeleBot env (TOKEN env) with
     | Raise e => (Raise e, w)
     | Ret _ =>
         match new_binance env with
         | Raise e => (Raise e, w)
         | Ret _ => rest {| clock := clock w; trace := trace w;
                            trading_bot := TradingBot_init |}
         end
     end).
Proof.
  split.
  - intros H.
    assert (Hnot : py_not (TOKEN env) || py_not (CHAT_ID env) = true).
    { apply orb_true_iff. now rewrite !py_not_iff. }
    unfold bind. now rewrite module_init_cases, Hnot.
  - intros Htok Hchat.
    assert (Hnot : py_not (TOKEN env) || py_not (CHAT_ID env) = false).
    { apply orb_false_iff. rewrite <- !py_not_iff in *.
      split; apply not_true_is_false; assumption. }
    split.
    + unfold validate_environment. now rewrite Hnot.
    + unfold bind. rewrite module_init_cases, Hnot.
      destruct (new_TeleBot env (TOKEN env)) as [[]|e]; [| reflexivity].
      destruct (new_binance env) as [[]|e]; reflexivity.
Qed.

Lemma startup_requires_secrets_witness :
  (module_init Scenario.unconfigured ;; emit ThreadStarted) initial_world =
    (Raise (mkExn ValueError
              "Не установлены TELEGRAM_TOKEN или TELEGRAM_CHAT_ID"),
     initial_world) /\
  (validate_environment Scenario.calm initial_world = (Ret tt, initial_world) /\
   (module_init Scenario.calm ;; emit ThreadStarted) initial_world =
     match new_TeleBot Scenario.calm (TOKEN Scenario.calm) with
     | Raise e => (Raise e, initial_world)
     | Ret _ =>
         match new_binance Scenario.calm with
         | Raise e => (Raise e, initial_world)
         | Ret _ =>
             emit ThreadStarted
               {| clock := clock initial_world; trace := trace initial_world;
                  trading_bot := TradingBot_init |}
         end
     end).
Proof.
  split.
  - destruct (startup_requires_secrets Scenario.unconfigured initial_world
                unit (emit ThreadStarted)) as [Hmissing _].
    apply Hmissing. right. left. reflexivity.
  - destruct (startup_requires_secrets Scenario.calm initial_world
                unit (emit ThreadStarted)) as [_ Hpresent].
    apply Hpresent; intros [H | H]; discriminate H.
Defined.

(** ** Command handlers *)

Lemma info_text_last_signal (b : TradingBot) :
  Contains (info_text b)
    (fstring ["Последний сигнал: <code>";
              match last_signal b with
              | Some last => direction last
              | None => "Нет данных"
              end;
              "</code>"]).
Proof.
  apply (fstring_contains
           [_; _; _; _; _; _; _; _; _; _; _; _; _; _; _; _; _; _]
           [_; _; _] []).
Qed.

(** C8.  The reply of [/info] is [info_text] of the bot object as it stands.
    It shows the symbol, the timeframe, the check interval in minutes and
    whether the loop is running, and then the direction of the stored last
    signal or, when none is stored, the placeholder for no data. *)
Theorem info_reply (env : Env) (msg : message) (w : World) :
  let b := trading_bot w in
  (exists r,
     info env msg w = (r, after 1 [reply_event msg (info_text b) r] w)) /\
  Contains (info_text b) (fstring ["Символ: <code>"; "BTC/USDT"; "</code>"]) /\
  Contains (info_text b) (fstring ["Таймфрейм: <code>"; "15m"; "</code>"]) /\
  Contains (info_text b)
    (fstring ["Интервал проверки: <code>"; "15"; " минут</code>"]) /\
  Contains (info_text b)
    (fstring ["Статус: ";
              if is_running b then "🟢 Активен" else "🔴 Остановлен"]) /\
  Contains (info_text b)
    (fstring ["Последний сигнал: <code>";
              match last_signal b with
              | Some last => direction last
              | None => "Нет данных"
              end;
              "</code>"]).
Proof.
  intros b. split.
  - unfold info, bot_reply_to, bot_send. step_monad. fold b.
    destruct (send_result env (clock w) _ _) as [[]|e]; eexists; reflexivity.
  - unfold info_text. repeat split.
    + apply (fstring_contains [_; _; _] [_; _; _] (_ :: _)).
    + apply (fstring_contains [_; _; _; _; _; _; _] [_; _; _] (_ :: _)).
    + apply (fstring_contains [_; _; _; _; _; _; _; _; _; _; _]
                              [_; _; _] (_ :: _)).
    + apply (fstring_contains [_; _; _; _; _; _; _; _; _; _; _; _; _; _; _]
                              [_; _] (_ :: _)).
    + apply info_text_last_signal.
Qed.

(** C2 as stated fails: not every handler catches what is raised inside it.
    When Telegram cannot be reached, [/info] lets the exception of its reply
    out, and nothing but the failed reply is in the trace. *)
Lemma info_lets_exception_out :
  handler Scenario.telegram_down CmdInfo Scenario.request initial_world =
    (Raise Scenario.unreachable,
     after 1 [reply_event Scenario.request (info_text TradingBot_init)
                (Raise Scenario.unreachable)] initial_world).
Proof. reflexivity. Qed.

(** C2, amended.  [/status] catches every exception raised in the body of
    its [try]: it logs it and sends one error reply with the text of the
    exception to the requesting chat, and the handler ends as that send
    ends.  [/start], [/info] and [/help] have no [try]: when their reply
    fails, the exception leaves the handler and nothing else is sent. *)
Theorem status_catches_and_reports (env : Env) (msg : message) :
  (forall (w w1 : World) (e : exn),
     status_try env msg w = (Raise e, w1) ->
     let r := send_result env (clock w1) (ChatInt (chat_id msg))
                (fstring ["❌ Произошла ошибка: "; str_exn e]) in
     status env msg w =
       (r, after 1 [Logged ERROR (fstring ["Ошибка в команде /status: ";
                                           str_exn e]) true;
                    error_reply msg e r] w1)) /\
  (forall (c : command) (w : World) (e : exn),
     c <> CmdStatus ->
     send_result env (clock w) (ChatInt (chat_id msg))
                 (reply_text c (trading_bot w)) = Raise e ->
     handler env c msg w =
       (Raise e,
        after 1 [reply_event msg (reply_text c (trading_bot w)) (Raise e)] w)).
Proof.
  split.
  - intros w w1 e Htry r.
    unfold status, try_except. rewrite Htry.
    unfold status_except, bot_send_message, bot_send. step_monad.
    fold r. unfold after, error_reply; cbn. rewrite <- app_assoc.
    destruct r as [[]|e']; reflexivity.
  - intros c w e Hc Hsend.
    destruct c; try contradiction; cbn [handler reply_text] in *;
      unfold start, info, help_command, bot_reply_to, bot_send;
      step_monad; rewrite Hsend; reflexivity.
Qed.

Lemma status_catches_and_reports_witness :
  let w1 := snd (status_try Scenario.telegram_down Scenario.request
                            initial_world) in
  let r := send_result Scenario.telegram_down (clock w1) (ChatInt 1001)
             (fstring ["❌ Произошла ошибка: "; "Connection refused"]) in
  status Scenario.telegram_down Scenario.request initial_world =
    (r, after 1 [Logged ERROR (fstring ["Ошибка в команде /status: ";
                                        "Connection refused"]) true;
                 error_reply Scenario.request Scenario.unreachable r] w1).
Proof.
  destruct (status_catches_and_reports Scenario.telegram_down Scenario.request)
    as [Hcatch _].
  apply (Hcatch initial_world
           (snd (status_try Scenario.telegram_down Scenario.request
                            initial_world))
           Scenario.unreachable).
  reflexivity.
Defined.

(** ** Scenarios *)

(** Up, up again, then down: the first and the third are announced, and
    [/info] then shows the direction of the third. *)
Example up_up_down :
  let w := snd (feed Scenario.calm
                  [Scenario.up; Scenario.up_again; Scenario.down]
                  initial_world) in
  delivered (trace w) =
    [announcement Scenario.calm Scenario.up;
     announcement Scenario.calm Scenario.down] /\
  last_signal (trading_bot w) = Some Scenario.down /\
  Contains (info_text (trading_bot w)) "Последний сигнал: <code>SELL 🔴</code>".
Proof.
  repeat split.
  exact (info_text_last_signal
           {| last_signal := Some Scenario.down; is_running := false |}).
Qed.

(** Telegram fails once: the first turn pauses 60 seconds and stores
    nothing, the second announces the signal and pauses the full interval. *)
Example hiccup_then_announce :
  let w := snd (auto_check Scenario.telegram_hiccup 2 initial_world) in
  sleeps (trace w) = [60%Z; CHECK_INTERVAL] /\
  delivered (trace w) = [announcement Scenario.telegram_hiccup Scenario.up] /\
  length (sends (trace w)) = 2 /\
  last_signal (trading_bot w) = Some Scenario.up.
Proof. repeat split. Qed.

(** The exchange is down: [/status] still answers, with its notice that no
    signal could be had. *)
Example status_when_exchange_down :
  delivered (trace (snd (status Scenario.exchange_down Scenario.request
                                initial_world))) =
    ["⏳ Получаю данные...";
     "⚠️ Не удалось получить сигнал. Попробуйте позже."].
Proof. reflexivity. Qed.

(** The three kinds of value in the direction column. *)
Example direction_of_one_minus_one_nan :
  option_map direction (match fst (get_signal Scenario.calm initial_world) with
                        | Ret v => v | Raise _ => None end) = Some BUY /\
  option_map direction (match fst (get_signal Scenario.falling initial_world) with
                        | Ret v => v | Raise _ => None end) = Some SELL /\
  option_map direction (match fst (get_signal Scenario.undecided initial_world) with
                        | Ret v => v | Raise _ => None end) = Some SELL.
Proof. repeat split. Qed.

(** * Further properties of the program *)

(** ** The evaluator *)

(** X1.  Whatever the exchange and the indicator do, [get_signal] returns
    without raising, touches neither the bot object nor Telegram, and leaves
    exactly one log record; the record is at level INFO exactly when a signal
    is returned. *)
Theorem get_signal_one_log_record (env : Env) (w : World) :
  exists v calls lvl msg exc,
    get_signal env w = (Ret v, after calls [Logged lvl msg exc] w) /\
    (lvl = INFO <-> v <> None).
Proof.
  unfold get_signal, try_except, get_signal_try, exchange_fetch_ohlcv.
  step_monad.
  destruct (fetch_ohlcv env (clock w) SYMBOL TIMEFRAME 100) as [[|bar bars]|e].
  - eexists _, 1, _, _, _. split; [reflexivity |]. split; [discriminate | congruence].
  - unfold ta_supertrend; step_monad.
    destruct (supertrend env _ _ _ _ _) as [[[|row frame]|]|e].
    + eexists _, 1, _, _, _. split; [reflexivity |].
      split; [discriminate | congruence].
    + destruct (nonempty_snoc row frame) as (f1 & r1 & ->).
      destruct (nonempty_snoc bar bars) as (f2 & r2 & ->).
      rewrite !iloc_last_snoc. unfold datetime_now_strftime; step_monad.
      eexists _, 2, _, _, _. split; [reflexivity |].
      split; [discriminate | reflexivity].
    + eexists _, 1, _, _, _. split; [reflexivity |].
      split; [discriminate | congruence].
    + unfold get_signal_except.
      destruct (exn_cls e); step_monad; eexists _, 1, _, _, _;
        (split; [reflexivity |]); (split; [discriminate | congruence]).
  - unfold get_signal_except.
    destruct (exn_cls e); step_monad; eexists _, 1, _, _, _;
      (split; [reflexivity |]); (split; [discriminate | congruence]).
Qed.

(** X2.  A signal comes out of [get_signal] only when the exchange gave
    candles and the indicator gave rows.  Its price is the close of the last
    candle, its timestamp the reading of the clock taken after the fetch, its
    direction one of the two strings, and the one record logged is the INFO
    line with direction and price. *)
Theorem get_signal_some_inv (env : Env) (w w1 : World) (s : signal_data) :
  get_signal env w = (Ret (Some s), w1) ->
  exists bars front last_bar frame last_row,
    fetch_ohlcv env (clock w) SYMBOL TIMEFRAME 100 = Ret bars /\
    bars = front ++ [last_bar] /\
    supertrend env (map c_high bars) (map c_low bars) (map c_close bars)
               10 3%float = Ret (Some (frame ++ [last_row])) /\
    price s = c_close last_bar /\
    timestamp s = now_strftime env (S (clock w)) "%Y-%m-%d %H:%M:%S" /\
    (direction s = BUY \/ direction s = SELL) /\
    w1 = after 2 [Logged INFO (fstring ["Сигнал: "; direction s; " по цене ";
                                        str_float env (price s)]) false] w.
Proof.
  unfold get_signal, try_except, get_signal_try, exchange_fetch_ohlcv.
  step_monad.
  destruct (fetch_ohlcv env (clock w) SYMBOL TIMEFRAME 100)
    as [[|bar bars]|e] eqn:Hfetch.
  - discriminate.
  - unfold ta_supertrend; step_monad.
    destruct (supertrend env _ _ _ _ _) as [[[|row frame]|]|e] eqn:Hst.
    + discriminate.
    + destruct (nonempty_snoc row frame) as (f1 & r1 & E1).
      destruct (nonempty_snoc bar bars) as (f2 & r2 & E2).
      rewrite E1, E2, !iloc_last_snoc.
      unfold datetime_now_strftime; step_monad.
      intros [= <- <-].
      exists (bar :: bars), f2, r2, f1, r1. rewrite <- E1.
      repeat split; try assumption; try (now rewrite E2).
      cbn. destruct (PrimFloat.eqb (SUPERTd r1) 1%float); auto.
    + discriminate.
    + unfold get_signal_except. destruct (exn_cls e); step_monad; discriminate.
  - unfold get_signal_except. destruct (exn_cls e); step_monad; discriminate.
Qed.

Lemma get_signal_some_inv_witness :
  exists bars front last_bar frame last_row,
    fetch_ohlcv Scenario.calm (clock initial_world) SYMBOL TIMEFRAME 100 =
      Ret bars /\
    bars = front ++ [last_bar] /\
    supertrend Scenario.calm (map c_high bars) (map c_low bars)
               (map c_close bars) 10 3%float = Ret (Some (frame ++ [last_row])) /\
    price Scenario.up = c_close last_bar /\
    timestamp Scenario.up =
      now_strftime Scenario.calm (S (clock initial_world)) "%Y-%m-%d %H:%M:%S" /\
    (direction Scenario.up = BUY \/ direction Scenario.up = SELL) /\
    snd (get_signal Scenario.calm initial_world) =
      after 2 [Logged INFO (fstring ["Сигнал: "; direction Scenario.up;
                                     " по цене ";
                                     str_float Scenario.calm (price Scenario.up)])
                      false] initial_world.
Proof.
  apply (get_signal_some_inv Scenario.calm initial_world
           (snd (get_signal Scenario.calm initial_world)) Scenario.up).
  reflexivity.
Defined.

(** X3.  When the indicator returns [None] or a frame without rows for
    candles that are there, [get_signal] returns [None] and logs the one
    warning that SuperTrend could not be computed. *)
Theorem get_signal_no_indicator (env : Env) (w : World) (bars : list candle) :
  fetch_ohlcv env (clock w) SYMBOL TIMEFRAME 100 = Ret bars ->
  bars <> [] ->
  supertrend env (map c_high bars) (map c_low bars) (map c_close bars)
             10 3%float = Ret None \/
  supertrend env (map c_high bars) (map c_low bars) (map c_close bars)
             10 3%float = Ret (Some []) ->
  get_signal env w =
    (Ret None,
     after 1 [Logged WARNING "Не удалось рассчитать SuperTrend" false] w).
Proof.
  intros Hfetch Hbars Hst.
  unfold get_signal, try_except, get_signal_try, exchange_fetch_ohlcv.
  step_monad. rewrite Hfetch.
  destruct bars as [|b bars]; [contradiction |].
  unfold ta_supertrend; step_monad. cbn in Hst.
  destruct Hst as [-> | ->]; reflexivity.
Qed.

Lemma get_signal_no_indicator_witness :
  get_signal Scenario.no_trend initial_world =
    (Ret None,
     after 1 [Logged WARNING "Не удалось рассчитать SuperTrend" false]
           initial_world).
Proof.
  apply (get_signal_no_indicator Scenario.no_trend initial_world
           [Scenario.bar]).
  - reflexivity.
  - discriminate.
  - right. reflexivity.
Defined.

(** X4.  An exception of any class, raised by the fetch or by the
    indicator, ends in [None] and in one ERROR record that contains the text
    of the exception; the record carries the traceback exactly when the
    exception is neither a network nor an exchange error. *)
Theorem get_signal_swallows_exceptions (env : Env) (w : World) (e : exn) :
  fetch_ohlcv env (clock w) SYMBOL TIMEFRAME 100 = Raise e \/
  (exists bars,
     fetch_ohlcv env (clock w) SYMBOL TIMEFRAME 100 = Ret bars /\
     bars <> [] /\
     supertrend env (map c_high bars) (map c_low bars) (map c_close bars)
                10 3%float = Raise e) ->
  exists msg,
    get_signal env w =
      (Ret None, after 1 [Logged ERROR msg (with_traceback e)] w) /\
    Contains msg (str_exn e).
Proof.
  intros H.
  assert (Hexc : exists msg,
             get_signal_except e
               {| clock := S (clock w); trace := trace w;
                  trading_bot := trading_bot w |} =
               (Ret None, after 1 [Logged ERROR msg (with_traceback e)] w) /\
             Contains msg (str_exn e)).
  { unfold get_signal_except, with_traceback.
    destruct (exn_cls e); step_monad; eexists; (split; [reflexivity |]);
      apply (fstring_contains_piece [_]). }
  unfold get_signal, try_except, get_signal_try, exchange_fetch_ohlcv.
  step_monad.
  destruct H as [-> | (bars & -> & Hbars & Hst)]; [exact Hexc |].
  destruct bars as [|b bars]; [contradiction |].
  unfold ta_supertrend; step_monad. cbn in Hst. rewrite Hst. exact Hexc.
Qed.

Lemma get_signal_swallows_exceptions_witness :
  exists msg,
    get_signal Scenario.indicator_broken initial_world =
      (Ret None, after 1 [Logged ERROR msg true] initial_world) /\
    Contains msg "cannot convert float NaN to integer".
Proof.
  apply (get_signal_swallows_exceptions Scenario.indicator_broken
           initial_world Scenario.bad_input).
  right. exists [Scenario.bar]. split; [reflexivity |].
  split; [discriminate | reflexivity].
Defined.

(** ** More on the monad and on traces *)

Lemma after_after (k1 k2 : nat) (e1 e2 : list event) (w : World) :
  after k2 e2 (after k1 e1 w) = after (k2 + k1) (e1 ++ e2) w.
Proof.
  unfold after; simpl. now rewrite Nat.add_assoc, app_assoc.
Qed.

(** A send is one call to the outside and one event, and ends as Telegram
    says. *)
Lemma bot_send_eq (env : Env) (chat : chat_ref) (text : string)
  (pm : option string) (rt : option Z) (w : World) :
  bot_send env chat text pm rt w =
    (send_result env (clock w) chat text,
     after 1 [SendMessage chat text pm rt
                (send_result env (clock w) chat text)] w).
Proof.
  unfold bot_send. step_monad.
  destruct (send_result env (clock w) chat text); reflexivity.
Qed.

Lemma logs_addressed (chat : chat_ref) (logs : list event) :
  forallb is_log logs = true -> Forall (addressed_to chat) logs.
Proof.
  induction logs as [|[] logs IH]; simpl; try discriminate; auto.
  intros H. constructor; [exact I | auto].
Qed.

Lemma logs_no_delivered (logs : list event) :
  forallb is_log logs = true -> delivered logs = [].
Proof.
  induction logs as [|[] logs IH]; simpl; try discriminate; auto.
Qed.

(** ** More on the handlers *)

(** The body of the [try] of [/status]: what it does, and where an exception
    that leaves it comes from. *)
Lemma status_try_effect (env : Env) (msg : message) (w : World) :
  exists r calls delta,
    status_try env msg w = (r, after calls delta w) /\
    sleeps delta = [] /\
    Forall (addressed_to (ChatInt (chat_id msg))) delta /\
    sends delta <> [] /\
    forall e, r = Raise e ->
      exists prefix text pm,
        delta = prefix ++
                [SendMessage (ChatInt (chat_id msg)) text pm None (Raise e)].
Proof.
  unfold status_try, bot_send_message. unfold bind at 1.
  rewrite bot_send_eq.
  destruct (send_result env (clock w) (ChatInt (chat_id msg))
              "⏳ Получаю данные...") as [[]|e1].
  - unfold bind at 1.
    match goal with |- context [get_signal env ?w0] =>
      destruct (get_signal_frame env w0) as (v & calls & logs & -> & Hlogs)
    end.
    assert (Hshape : forall text pm,
      exists r calls' delta,
        bot_send env (ChatInt (chat_id msg)) text pm None
          (after calls logs
             (after 1 [SendMessage (ChatInt (chat_id msg))
                         "⏳ Получаю данные..." None None (Ret tt)] w)) =
          (r, after calls' delta w) /\
        sleeps delta = [] /\
        Forall (addressed_to (ChatInt (chat_id msg))) delta /\
        sends delta <> [] /\
        forall e, r = Raise e ->
          exists prefix text' pm',
            delta = prefix ++
              [SendMessage (ChatInt (chat_id msg)) text' pm' None (Raise e)]).
    { intros text pm. rewrite bot_send_eq, !after_after.
      eexists _, _, _. split; [reflexivity |]. split; [| split; [| split]].
      - rewrite !sleeps_app, (logs_no_sleeps logs Hlogs). reflexivity.
      - apply Forall_app. split; [apply Forall_app; split |].
        + repeat constructor.
        + apply logs_addressed, Hlogs.
        + repeat constructor.
      - rewrite sends_app. cbn. discriminate.
      - intros e ->. eexists _, _, _. reflexivity. }
    destruct v as [s|]; apply Hshape.
  - eexists _, _, _. split; [reflexivity |]. split; [reflexivity |].
    split; [repeat constructor |]. split; [discriminate |].
    intros e [= ->]. exists [], "⏳ Получаю данные...", None. reflexivity.
Qed.

(** X5.  Each of the four handlers leaves the bot object as it found it,
    never sleeps and sends at least one message; the destination of every
    send is [message.chat.id], the chat the command came from, whichever chat
    that is. *)
Theorem handlers_only_answer_the_requester (env : Env) (c : command)
  (msg : message) (w : World) :
  exists r calls delta,
    handler env c msg w = (r, after calls delta w) /\
    trading_bot (after calls delta w) = trading_bot w /\
    sleeps delta = [] /\
    sends delta <> [] /\
    Forall (addressed_to (ChatInt (chat_id msg))) delta.
Proof.
  destruct c; cbn [handler].
  - unfold start, bot_reply_to. unfold bind at 1. rewrite bot_send_eq.
    destruct (send_result env (clock w) _ _) as [[]|e].
    + step_monad. eexists (Ret tt), 1, _.
      split; [unfold after; cbn; now rewrite <- app_assoc |].
      repeat split; try discriminate. repeat constructor.
    + eexists (Raise e), 1, _. split; [reflexivity |].
      repeat split; try discriminate. repeat constructor.
  - unfold status, try_except.
    destruct (status_try_effect env msg w)
      as (r & calls & delta & -> & Hsl & Haddr & Hsends & _).
    destruct r as [[]|e].
    + exists (Ret tt), calls, delta. auto.
    + unfold status_except, bot_send_message. unfold bind at 1.
      unfold logger_error, emit at 1. rewrite bot_send_eq.
      eexists _, (1 + calls), (delta ++ [_; _]).
      split; [unfold after; cbn; now rewrite <- !app_assoc |].
      split; [reflexivity |]. split; [| split].
      * rewrite sleeps_app, Hsl. reflexivity.
      * rewrite sends_app. intros H. apply app_eq_nil in H. now destruct H.
      * apply Forall_app. split; [exact Haddr | repeat constructor].
  - unfold info, bot_reply_to. unfold bind at 1, get_bot at 1.
    rewrite bot_send_eq. eexists _, 1, _. split; [reflexivity |].
    repeat split; try discriminate. repeat constructor.
  - unfold help_command, bot_reply_to. rewrite bot_send_eq.
    eexists _, 1, _. split; [reflexivity |].
    repeat split; try discriminate. repeat constructor.
Qed.

(** X6.  With Telegram reachable [/status] returns normally after two
    messages to the requester: the notice that data is being fetched and
    then, as HTML, the formatted signal of a fresh evaluation or, when that
    gave none, the plain notice that no signal could be had. *)
Theorem status_answers_twice (env : Env) (msg : message) (w w1 : World)
  (v : option signal_data) :
  (forall now chat text, send_result env now chat text = Ret tt) ->
  get_signal env
    (after 1 [SendMessage (ChatInt (chat_id msg)) "⏳ Получаю данные..."
                None None (Ret tt)] w) = (Ret v, w1) ->
  status env msg w =
    (Ret tt,
     after 1
       [match v with
        | Some s =>
            SendMessage (ChatInt (chat_id msg)) (format_signal_message env s)
              (Some "HTML") None (Ret tt)
        | None =>
            SendMessage (ChatInt (chat_id msg))
              "⚠️ Не удалось получить сигнал. Попробуйте позже."
              None None (Ret tt)
        end] w1).
Proof.
  intros Hsend Hsig.
  unfold status, try_except, status_try, bot_send_message.
  unfold bind at 1. rewrite bot_send_eq, Hsend.
  unfold bind at 1. rewrite Hsig.
  destruct v as [s|]; rewrite bot_send_eq, Hsend; reflexivity.
Qed.

Lemma status_answers_twice_witness :
  status Scenario.calm Scenario.request initial_world =
    (Ret tt,
     after 1
       [SendMessage (ChatInt 1001)
          (format_signal_message Scenario.calm Scenario.up)
          (Some "HTML") None (Ret tt)]
       (snd (get_signal Scenario.calm
               (after 1 [SendMessage (ChatInt 1001) "⏳ Получаю данные..."
                           None None (Ret tt)] initial_world)))).
Proof.
  apply (status_answers_twice Scenario.calm Scenario.request initial_world
           _ (Some Scenario.up)).
  - reflexivity.
  - reflexivity.
Defined.

(** X7.  The only exceptions the [try] of [/status] ever hands to its
    [except] clause are those of its own sends to the requester: whatever
    goes wrong in the evaluation stays inside [get_signal]. *)
Theorem status_catches_only_send_failures (env : Env) (msg : message)
  (w w1 : World) (e : exn) :
  status_try env msg w = (Raise e, w1) ->
  exists prefix text pm,
    trace w1 =
      trace w ++ prefix ++
      [SendMessage (ChatInt (chat_id msg)) text pm None (Raise e)].
Proof.
  intros Htry.
  destruct (status_try_effect env msg w)
    as (r & calls & delta & E & _ & _ & _ & Hlast).
  rewrite E in Htry. injection Htry as -> <-.
  destruct (Hlast e eq_refl) as (prefix & text & pm & ->).
  now exists prefix, text, pm.
Qed.

Lemma status_catches_only_send_failures_witness :
  exists prefix text pm,
    trace (snd (status_try Scenario.telegram_down Scenario.request
                           initial_world)) =
      trace initial_world ++ prefix ++
      [SendMessage (ChatInt (chat_id Scenario.request)) text pm None
         (Raise Scenario.unreachable)].
Proof.
  apply (status_catches_only_send_failures Scenario.telegram_down
           Scenario.request initial_world).
  reflexivity.
Defined.

(** ** More on the loop *)

(** [get_signal] once more, with the directions it can write. *)
Lemma get_signal_range (env : Env) (w : World) :
  exists v calls logs,
    get_signal env w = (Ret v, after calls logs w) /\
    forallb is_log logs = true /\
    forall s, v = Some s -> direction s = BUY \/ direction s = SELL.
Proof.
  unfold get_signal, try_except, get_signal_try, exchange_fetch_ohlcv.
  step_monad.
  destruct (fetch_ohlcv env (clock w) SYMBOL TIMEFRAME 100) as [[|bar bars]|e].
  - eexists _, 1, [_]. repeat split. discriminate.
  - unfold ta_supertrend; step_monad.
    destruct (supertrend env _ _ _ _ _) as [[[|row frame]|]|e].
    + eexists _, 1, [_]. repeat split. discriminate.
    + destruct (nonempty_snoc row frame) as (f1 & r1 & ->).
      destruct (nonempty_snoc bar bars) as (f2 & r2 & ->).
      rewrite !iloc_last_snoc. unfold datetime_now_strftime; step_monad.
      eexists _, 2, [_]. repeat split.
      intros s [= <-]. cbn.
      destruct (PrimFloat.eqb (SUPERTd r1) 1%float); auto.
    + eexists _, 1, [_]. repeat split. discriminate.
    + unfold get_signal_except.
      destruct (exn_cls e); step_monad; eexists _, 1, [_]; repeat split;
        discriminate.
  - unfold get_signal_except.
    destruct (exn_cls e); step_monad; eexists _, 1, [_]; repeat split;
      discriminate.
Qed.

(** What one turn does to the trace and to the bot object. *)
Lemma iteration_effect (env : Env) (w : World) :
  exists w' delta,
    auto_check_iteration env w = (Ret tt, w') /\
    trace w' = trace w ++ delta /\
    is_running (trading_bot w') = is_running (trading_bot w) /\
    length (sends delta) <= 1 /\
    Forall (addressed_to (ChatEnv (CHAT_ID env))) delta /\
    ((trading_bot w' = trading_bot w /\ delivered delta = []) \/
     (exists s,
        signal_changed (trading_bot w) s = true /\
        (direction s = BUY \/ direction s = SELL) /\
        last_signal (trading_bot w') = Some s /\
        delivered delta = [announcement env s])).
Proof.
  destruct (get_signal_range env w) as (v & calls & logs & Hsig & Hlogs & Hdir).
  pose proof (logs_no_sends logs Hlogs) as Hns.
  pose proof (logs_no_delivered logs Hlogs) as Hnd.
  pose proof (logs_addressed (ChatEnv (CHAT_ID env)) logs Hlogs) as Hla.
  set (w1 := after calls logs w) in *.
  destruct v as [s|].
  - destruct (signal_changed (trading_bot w1) s) eqn:Hch.
    + destruct (send_result env (clock w1) (ChatEnv (CHAT_ID env))
                            (announcement env s)) as [[]|e] eqn:Hs.
      * rewrite (iteration_announced env w w1 s Hsig Hch Hs).
        eexists _, (logs ++ [announcement_event env s (Ret tt);
                             Logged INFO _ false; Slept CHECK_INTERVAL]).
        split; [reflexivity |]. split; [cbn; now rewrite <- !app_assoc |].
        split; [reflexivity |]. split; [| split].
        -- rewrite sends_app, Hns. cbn. lia.
        -- apply Forall_app. split; [exact Hla | repeat constructor].
        -- right. exists s. split; [exact Hch |]. split; [now apply Hdir |].
           split; [reflexivity |]. now rewrite delivered_app, Hnd.
      * rewrite (iteration_send_failed env w w1 s e Hsig Hch Hs).
        eexists _, (logs ++ announcement_event env s (Raise e) :: recovery e).
        split; [reflexivity |]. split; [cbn; now rewrite <- !app_assoc |].
        split; [reflexivity |]. split; [| split].
        -- rewrite sends_app, Hns. cbn. lia.
        -- apply Forall_app. split; [exact Hla | repeat constructor].
        -- left. split; [reflexivity |]. now rewrite delivered_app, Hnd.
    + rewrite (iteration_same_direction env w w1 s Hsig Hch).
      eexists _, (logs ++ [Slept CHECK_INTERVAL]).
      split; [reflexivity |]. split; [cbn; now rewrite <- !app_assoc |].
      split; [reflexivity |]. split; [| split].
      * rewrite sends_app, Hns. cbn. lia.
      * apply Forall_app. split; [exact Hla | repeat constructor].
      * left. split; [reflexivity |]. now rewrite delivered_app, Hnd.
  - rewrite (iteration_no_signal env w w1 Hsig).
    eexists _, (logs ++ [Slept CHECK_INTERVAL]).
    split; [reflexivity |]. split; [cbn; now rewrite <- !app_assoc |].
    split; [reflexivity |]. split; [| split].
    + rewrite sends_app, Hns. cbn. lia.
    + apply Forall_app. split; [exact Hla | repeat constructor].
    + left. split; [reflexivity |]. now rewrite delivered_app, Hnd.
Qed.

(** What a [stop] of the main thread, if one comes, does before the loop
    test. *)
Lemma interference_effect (env : Env) (w : World) :
  exists w0 logs,
    main_thread_interference env w = (Ret tt, w0) /\
    trace w0 = trace w ++ logs /\
    forallb is_log logs = true /\
    last_signal (trading_bot w0) = last_signal (trading_bot w) /\
    (stop_requested env (clock w) = true ->
     is_running (trading_bot w0) = false).
Proof.
  unfold main_thread_interference, stop.
  destruct (stop_requested env (clock w)); step_monad.
  - eexists _, [_]. repeat split.
  - exists w, []. rewrite app_nil_r. repeat split. discriminate.
Qed.

(** X8.  A turn of the loop calls [bot.send_message] at most once and for
    no chat but the configured one.  It stores a signal exactly when its
    announcement was delivered in this turn; otherwise nothing was delivered
    and the bot object is as before.  The running flag is never touched. *)
Theorem turn_stores_what_it_delivers (env : Env) (w : World) :
  exists w' delta,
    auto_check_iteration env w = (Ret tt, w') /\
    trace w' = trace w ++ delta /\
    is_running (trading_bot w') = is_running (trading_bot w) /\
    length (sends delta) <= 1 /\
    Forall (addressed_to (ChatEnv (CHAT_ID env))) delta /\
    ((delivered delta = [] /\ trading_bot w' = trading_bot w) \/
     (exists s,
        delivered delta = [announcement env s] /\
        last_signal (trading_bot w') = Some s /\
        last_signal (trading_bot w) <> Some s)).
Proof.
  destruct (iteration_effect env w)
    as (w' & delta & Hit & Ht & Hrun & Hlen & Haddr & Hcase).
  exists w', delta. repeat (split; [assumption |]).
  destruct Hcase as [[Hbot Hdel] | (s & Hch & _ & Hlast & Hdel)].
  - left. auto.
  - right. exists s. repeat split; try assumption.
    intros Hsame. unfold signal_changed in Hch. rewrite Hsame in Hch.
    now rewrite String.eqb_refl in Hch.
Qed.

(** X9.  In any run of the loop, whatever fails on the way and whenever it
    is stopped, the announcements that reach the chat are those of a sequence
    of signals in which no direction follows itself, the first differing from
    the direction stored at the start; and the signal stored at the end is
    the last one announced, or the one stored at the start when none was. *)
Theorem run_never_repeats_a_direction (env : Env) (turns : nat) (w : World) :
  exists r w' delta signals,
    auto_check env turns w = (Ret r, w') /\
    trace w' = trace w ++ delta /\
    delivered delta = map (announcement env) signals /\
    alternating (option_map direction (last_signal (trading_bot w))) signals /\
    last_signal (trading_bot w') =
      last_stored (last_signal (trading_bot w)) signals.
Proof.
  assert (Hloop : forall n w0, exists r w' delta signals,
            auto_check_loop env n w0 = (Ret r, w') /\
            trace w' = trace w0 ++ delta /\
            delivered delta = map (announcement env) signals /\
            alternating (option_map direction (last_signal (trading_bot w0)))
                        signals /\
            last_signal (trading_bot w') =
              last_stored (last_signal (trading_bot w0)) signals).
  { induction n as [|n IH]; intros w0.
    - exists LoopStillRunning, w0, [], []. rewrite app_nil_r.
      repeat split.
    - cbn [auto_check_loop]. unfold bind at 1.
      destruct (interference_effect env w0)
        as (w1 & logs & -> & Ht1 & Hlogs & Hlast1 & _).
      unfold bind at 1, get_bot at 1.
      destruct (is_running (trading_bot w1)).
      + unfold bind at 1.
        destruct (iteration_effect env w1)
          as (w2 & d2 & -> & Ht2 & _ & _ & _ & Hcase).
        destruct (IH w2) as (r & w3 & d3 & sigs & Hrun & Ht3 & Hdel3 & Halt & Hlast3).
        destruct Hcase as [[Hbot Hdel2] | (s & Hch & _ & Hlast2 & Hdel2)].
        * exists r, w3, (logs ++ d2 ++ d3), sigs.
          split; [exact Hrun |]. split; [| split; [| split]].
          -- now rewrite Ht3, Ht2, Ht1, <- !app_assoc.
          -- now rewrite !delivered_app, (logs_no_delivered logs Hlogs), Hdel2.
          -- now rewrite <- Hlast1, <- Hbot.
          -- now rewrite <- Hlast1, <- Hbot.
        * exists r, w3, (logs ++ d2 ++ d3), (s :: sigs).
          split; [exact Hrun |]. split; [| split; [| split]].
          -- now rewrite Ht3, Ht2, Ht1, <- !app_assoc.
          -- rewrite !delivered_app, (logs_no_delivered logs Hlogs), Hdel2, Hdel3.
             reflexivity.
          -- cbn [alternating]. rewrite Hlast2 in Halt. split; [| exact Halt].
             unfold signal_changed in Hch. rewrite Hlast1 in Hch.
             destruct (last_signal (trading_bot w0)) as [last|]; cbn; [| exact I].
             now apply String.eqb_neq, negb_true_iff.
          -- rewrite Hlast3, Hlast2. reflexivity.
      + exists LoopExited, w1, logs, []. split; [reflexivity |].
        split; [exact Ht1 |]. split; [now apply logs_no_delivered |].
        split; [exact I | exact Hlast1]. }
  unfold auto_check. step_monad.
  match goal with |- context [auto_check_loop env turns ?w0] =>
    destruct (Hloop turns w0) as (r & w' & delta & sigs & Hrun & Ht & Hdel & Halt & Hlast)
  end.
  exists r, w', (Logged INFO "Автоматическая проверка запущена" false :: delta),
         sigs.
  split; [exact Hrun |]. split; [| split; [| split]].
  - rewrite Ht. cbn. now rewrite <- app_assoc.
  - exact Hdel.
  - exact Halt.
  - exact Hlast.
Qed.

(** X10.  If the stored signal, when there is one, carries one of the two
    directions [get_signal] writes, then so it does after any run of the
    loop: the loop stores nothing but what [get_signal] returned. *)
Theorem run_keeps_known_direction (env : Env) (turns : nat) (w : World) :
  known_direction (trading_bot w) ->
  known_direction (trading_bot (snd (auto_check env turns w))).
Proof.
  intros Hknown.
  assert (Hloop : forall n w0, known_direction (trading_bot w0) ->
            known_direction (trading_bot (snd (auto_check_loop env n w0)))).
  { induction n as [|n IH]; intros w0 H0; [exact H0 |].
    cbn [auto_check_loop]. unfold bind at 1.
    destruct (interference_effect env w0)
      as (w1 & logs & -> & _ & _ & Hlast1 & _).
    assert (H1 : known_direction (trading_bot w1))
      by (unfold known_direction in *; now rewrite Hlast1).
    unfold bind at 1, get_bot at 1.
    destruct (is_running (trading_bot w1)); [| exact H1].
    unfold bind at 1.
    destruct (iteration_effect env w1)
      as (w2 & d2 & -> & _ & _ & _ & _ & Hcase).
    apply IH.
    destruct Hcase as [[Hbot _] | (s & _ & Hdir & Hlast2 & _)].
    - now rewrite Hbot.
    - unfold known_direction. now rewrite Hlast2. }
  unfold auto_check. step_monad. apply Hloop. exact Hknown.
Qed.

Lemma run_keeps_known_direction_witness :
  known_direction
    (trading_bot (snd (auto_check Scenario.calm 3 initial_world))).
Proof.
  apply (run_keeps_known_direction Scenario.calm 3 initial_world).
  exact I.
Defined.

(** X11.  [stop] clears the running flag and keeps the stored signal.  A
    loop that comes to its test with a stop requested ends there: it neither
    evaluates nor sends nor sleeps again, and the stored signal stays. *)
Theorem stop_ends_the_loop (env : Env) (turns : nat) (w : World) :
  stop_requested env (clock w) = true ->
  exists w' logs,
    auto_check_loop env (S turns) w = (Ret LoopExited, w') /\
    trace w' = trace w ++ logs /\
    forallb is_log logs = true /\
    clock w' = clock w /\
    is_running (trading_bot w') = false /\
    last_signal (trading_bot w') = last_signal (trading_bot w).
Proof.
  intros Hstop. cbn [auto_check_loop]. unfold bind at 1.
  unfold main_thread_interference. rewrite Hstop.
  unfold stop. step_monad.
  eexists _, [_]. repeat split.
Qed.

Lemma stop_ends_the_loop_witness :
  exists w' logs,
    auto_check_loop Scenario.stopping 5 initial_world = (Ret LoopExited, w') /\
    trace w' = trace initial_world ++ logs /\
    forallb is_log logs = true /\
    clock w' = clock initial_world /\
    is_running (trading_bot w') = false /\
    last_signal (trading_bot w') = last_signal (trading_bot initial_world).
Proof.
  apply (stop_ends_the_loop Scenario.stopping 4 initial_world).
  reflexivity.
Defined.

(** ** More on the script *)

(** What becomes of the [try] of the main block when no Ctrl-C arrives at
    its statements. *)
Lemma main_try_quiet (env : Env) (w : World) :
  (forall point, ctrl_c env point = false) ->
  let r1 := send_result env (clock w) (ChatEnv (CHAT_ID env)) startup_text in
  main_try env w =
    match r1 with
    | Raise e =>
        (Raise e,
         after 1 [Logged INFO "Запуск бота..." false; ThreadStarted;
                  SendMessage (ChatEnv (CHAT_ID env)) startup_text
                    (Some "HTML") None r1] w)
    | Ret _ =>
        let polling :=
          [Logged INFO "Запуск бота..." false; ThreadStarted;
           SendMessage (ChatEnv (CHAT_ID env)) startup_text
             (Some "HTML") None r1;
           Logged INFO "Бот успешно запущен" false; PollingStarted] in
        match infinity_polling env (S (clock w)) with
        | PollingReturned => (Ret (Normal tt), after 2 polling w)
        | PollingRaised e => (Raise e, after 2 polling w)
        | PollingInterrupted => (Ret KeyboardInterrupt, after 2 polling w)
        end
    end.
Proof.
  intros Hquiet.
  unfold main_try, and_then, interruptible, statement, main_polling,
         bot_infinity_polling, bot_send_message, bot_send.
  rewrite !Hquiet. step_monad. fold startup_text.
  destruct (send_result env (clock w) (ChatEnv (CHAT_ID env)) startup_text)
    as [[]|e]; cbn.
  - destruct (infinity_polling env (S (clock w))); cbn;
      unfold after; cbn; rewrite <- !app_assoc; reflexivity.
  - unfold after; cbn. rewrite <- !app_assoc. reflexivity.
Qed.

(** The [try] of the main block only adds to the trace and leaves the bot
    object alone, wherever it ends. *)
Lemma main_try_trace (env : Env) (w : World) :
  exists r w1,
    main_try env w = (r, w1) /\
    trading_bot w1 = trading_bot w /\
    exists prefix, trace w1 = trace w ++ prefix.
Proof.
  unfold main_try, and_then, interruptible, statement, main_polling,
         bot_infinity_polling, bot_send_message, bot_send.
  step_monad.
  repeat match goal with
         | |- context [if ctrl_c env ?p then _ else _] =>
             destruct (ctrl_c env p); cbn
         | |- context [match send_result env ?a ?b ?c with _ => _ end] =>
             destruct (send_result env a b c) as [[]|?]; cbn
         | |- context [match infinity_polling env ?a with _ => _ end] =>
             destruct (infinity_polling env a); cbn
         end;
    eexists _, _; (split; [reflexivity |]); (split; [reflexivity |]); cbn;
    first [ exists []; rewrite app_nil_r; reflexivity
          | rewrite <- ?app_assoc; eexists; reflexivity ].
Qed.

(** The clause for [Exception] never lets anything out. *)
Lemma main_except_returns (env : Env) (e : exn) (w : World) :
  exists v w', main_except env e w = (Ret v, w').
Proof.
  unfold main_except, and_then, interruptible, statement, try_except,
         bot_send_message, bot_send.
  step_monad.
  destruct (ctrl_c env 8); cbn; [eauto |].
  destruct (ctrl_c env 9); cbn; [eauto |].
  destruct (send_result env _ _ _) as [[]|e']; cbn; eauto.
Qed.

(** X12.  The main block lets an exception out in one case only: a
    [KeyboardInterrupt] came out of its [try] and the notice that the bot
    has stopped could not be sent.  The loop has been told to stop by
    then. *)
Theorem main_raises_only_after_ctrl_c (env : Env) (w w' : World) (e : exn) :
  main env w = (Raise e, w') ->
  (exists w1, main_try env w = (Ret KeyboardInterrupt, w1)) /\
  is_running (trading_bot w') = false /\
  exists prefix,
    trace w' =
      trace w ++ prefix ++
      [SendMessage (ChatEnv (CHAT_ID env)) "🛑 Бот остановлен" None None
         (Raise e)].
Proof.
  unfold main.
  destruct (main_try_trace env w) as (r & w1 & -> & _ & prefix & Ht).
  destruct r as [[[]|]|e1].
  - discriminate.
  - unfold main_keyboard_interrupt, and_then, interruptible, statement, stop,
           bot_send_message, bot_send.
    step_monad.
    destruct (ctrl_c env 5); cbn; [discriminate |].
    destruct (ctrl_c env 6); cbn; [discriminate |].
    destruct (ctrl_c env 7); cbn; [discriminate |].
    destruct (send_result env _ _ _) as [[]|e3]; cbn; [discriminate |].
    intros [= <- <-]. split; [eauto |]. split; [reflexivity |].
    cbn. rewrite Ht, <- !app_assoc.
    exists (prefix ++
            [Logged INFO "Получен сигнал остановки" false;
             Logged INFO "Автоматическая проверка остановлена" false]).
    rewrite <- !app_assoc. reflexivity.
  - destruct (main_except_returns env e1 w1) as (v & w2 & ->). discriminate.
Qed.

Lemma main_raises_only_after_ctrl_c_witness :
  (exists w1,
     main_try Scenario.telegram_hiccup initial_world =
       (Ret KeyboardInterrupt, w1)) /\
  is_running
    (trading_bot (snd (main Scenario.telegram_hiccup initial_world))) = false /\
  exists prefix,
    trace (snd (main Scenario.telegram_hiccup initial_world)) =
      trace initial_world ++ prefix ++
      [SendMessage (ChatEnv (CHAT_ID Scenario.telegram_hiccup))
         "🛑 Бот остановлен" None None (Raise Scenario.unreachable)].
Proof.
  apply (main_raises_only_after_ctrl_c Scenario.telegram_hiccup initial_world).
  reflexivity.
Defined.

(** X13.  When the start-up notification cannot be sent (and no Ctrl-C
    arrives), the listener is never started although the polling thread
    already is: the main block logs the failure as critical, tries one error
    notification to the configured chat and returns normally whether or not
    that one gets through. *)
Theorem failed_startup_message_skips_polling (env : Env) (w : World) (e : exn) :
  (forall point, ctrl_c env point = false) ->
  send_result env (clock w) (ChatEnv (CHAT_ID env)) startup_text = Raise e ->
  exists r,
    main env w =
      (Ret (Normal tt),
       after 2
         [Logged INFO "Запуск бота..." false;
          ThreadStarted;
          SendMessage (ChatEnv (CHAT_ID env)) startup_text (Some "HTML") None
            (Raise e);
          Logged CRITICAL (fstring ["Критическая ошибка: "; str_exn e]) true;
          SendMessage (ChatEnv (CHAT_ID env))
            (fstring ["❌ Критическая ошибка: "; str_exn e]) None None r] w).
Proof.
  intros Hquiet Hsend.
  unfold main. rewrite (main_try_quiet env w Hquiet), Hsend. clear Hsend.
  unfold main_except, and_then, interruptible, statement, try_except,
         bot_send_message, bot_send.
  rewrite !Hquiet. step_monad.
  destruct (send_result env _ _ _) as [[]|e3]; cbn;
    eexists; unfold after; cbn; rewrite <- !app_assoc; reflexivity.
Qed.

Lemma failed_startup_message_skips_polling_witness :
  exists r,
    main Scenario.telegram_down initial_world =
      (Ret (Normal tt),
       after 2
         [Logged INFO "Запуск бота..." false;
          ThreadStarted;
          SendMessage (ChatEnv (CHAT_ID Scenario.telegram_down)) startup_text
            (Some "HTML") None (Raise Scenario.unreachable);
          Logged CRITICAL (fstring ["Критическая ошибка: ";
                                    str_exn Scenario.unreachable]) true;
          SendMessage (ChatEnv (CHAT_ID Scenario.telegram_down))
            (fstring ["❌ Критическая ошибка: ";
                      str_exn Scenario.unreachable]) None None r]
         initial_world).
Proof.
  apply (failed_startup_message_skips_polling Scenario.telegram_down
           initial_world Scenario.unreachable).
  - reflexivity.
  - reflexivity.
Defined.

(** X14.  When the polling itself raises (and no Ctrl-C arrives), the main
    block logs the failure as critical after the listener was started, tries
    one error notification and returns normally; the loop is not told to
    stop. *)
Theorem polling_failure_is_reported (env : Env) (w : World) (e : exn) :
  (forall point, ctrl_c env point = false) ->
  send_result env (clock w) (ChatEnv (CHAT_ID env)) startup_text = Ret tt ->
  infinity_polling env (S (clock w)) = PollingRaised e ->
  exists r w',
    main env w = (Ret (Normal tt), w') /\
    trading_bot w' = trading_bot w /\
    trace w' =
      trace w ++
      [Logged INFO "Запуск бота..." false;
       ThreadStarted;
       SendMessage (ChatEnv (CHAT_ID env)) startup_text (Some "HTML") None
         (Ret tt);
       Logged INFO "Бот успешно запущен" false;
       PollingStarted;
       Logged CRITICAL (fstring ["Критическая ошибка: "; str_exn e]) true;
       SendMessage (ChatEnv (CHAT_ID env))
         (fstring ["❌ Критическая ошибка: "; str_exn e]) None None r].
Proof.
  intros Hquiet Hsend Hpoll.
  unfold main. rewrite (main_try_quiet env w Hquiet), Hsend, Hpoll.
  clear Hsend Hpoll.
  unfold main_except, and_then, interruptible, statement, try_except,
         bot_send_message, bot_send.
  rewrite !Hquiet. step_monad.
  destruct (send_result env _ _ _) as [[]|e3]; cbn;
    eexists _, _; (split; [reflexivity |]); (split; [reflexivity |]);
    cbn; rewrite <- !app_assoc; reflexivity.
Qed.

Lemma polling_failure_is_reported_witness :
  exists r w',
    main Scenario.polling_breaks initial_world = (Ret (Normal tt), w') /\
    trading_bot w' = trading_bot initial_world /\
    trace w' =
      trace initial_world ++
      [Logged INFO "Запуск бота..." false;
       ThreadStarted;
       SendMessage (ChatEnv (CHAT_ID Scenario.polling_breaks)) startup_text
         (Some "HTML") None (Ret tt);
       Logged INFO "Бот успешно запущен" false;
       PollingStarted;
       Logged CRITICAL (fstring ["Критическая ошибка: ";
                                 str_exn Scenario.listener_crash]) true;
       SendMessage (ChatEnv (CHAT_ID Scenario.polling_breaks))
         (fstring ["❌ Критическая ошибка: ";
                   str_exn Scenario.listener_crash]) None None r].
Proof.
  apply (polling_failure_is_reported Scenario.polling_breaks initial_world
           Scenario.listener_crash).
  - reflexivity.
  - reflexivity.
  - reflexivity.
Defined.

(** X15.  When a [KeyboardInterrupt] comes out of the [try] of the main
    block, from whichever of its statements, and no further Ctrl-C arrives,
    the block logs the stop signal, calls [stop] (flag cleared, stored signal
    kept) and sends the notice that the bot has stopped; it ends as that send
    ends, for no [except] clause stands around it. *)
Theorem ctrl_c_stops_and_notifies (env : Env) (w w1 : World) :
  main_try env w = (Ret KeyboardInterrupt, w1) ->
  ctrl_c env 5 = false -> ctrl_c env 6 = false -> ctrl_c env 7 = false ->
  let r := send_result env (clock w1) (ChatEnv (CHAT_ID env))
                       "🛑 Бот остановлен" in
  main env w =
    (match r with
     | Ret _ => Ret (Normal tt)
     | Raise e => Raise e
     end,
     {| clock := S (clock w1);
        trace := trace w1 ++
                 [Logged INFO "Получен сигнал остановки" false;
                  Logged INFO "Автоматическая проверка остановлена" false;
                  SendMessage (ChatEnv (CHAT_ID env)) "🛑 Бот остановлен"
                    None None r];
        trading_bot := {| last_signal := last_signal (trading_bot w);
                          is_running := false |} |}).
Proof.
  intros Htry H5 H6 H7 r.
  destruct (main_try_trace env w) as (r0 & w0 & Htry0 & Hbot & _).
  rewrite Htry in Htry0. injection Htry0 as <- <-.
  unfold main. rewrite Htry.
  unfold main_keyboard_interrupt, and_then, interruptible, statement, stop,
         bot_send_message, bot_send.
  rewrite H5, H6, H7. step_monad. fold r. rewrite Hbot.
  destruct r as [[]|e]; cbn; rewrite <- !app_assoc; reflexivity.
Qed.

Lemma ctrl_c_stops_and_notifies_witness :
  let w1 := snd (main_try Scenario.ctrl_c_at_startup initial_world) in
  let r := send_result Scenario.ctrl_c_at_startup (clock w1)
             (ChatEnv (CHAT_ID Scenario.ctrl_c_at_startup))
             "🛑 Бот остановлен" in
  main Scenario.ctrl_c_at_startup initial_world =
    (match r with
     | Ret _ => Ret (Normal tt)
     | Raise e => Raise e
     end,
     {| clock := S (clock w1);
        trace := trace w1 ++
                 [Logged INFO "Получен сигнал остановки" false;
                  Logged INFO "Автоматическая проверка остановлена" false;
                  SendMessage (ChatEnv (CHAT_ID Scenario.ctrl_c_at_startup))
                    "🛑 Бот остановлен" None None r];
        trading_bot := {| last_signal := last_signal (trading_bot initial_world);
                          is_running := false |} |}).
Proof.
  apply (ctrl_c_stops_and_notifies Scenario.ctrl_c_at_startup initial_world
           (snd (main_try Scenario.ctrl_c_at_startup initial_world)));
    reflexivity.
Defined.

(** X17.  When [infinity_polling] returns, as it does once it has handled a
    Ctrl-C itself, the main block is over: [stop] is not called, the running
    flag stays as it is, and no notice that the bot has stopped is sent. *)
Theorem polling_return_ends_quietly (env : Env) (w : World) :
  (forall point, ctrl_c env point = false) ->
  send_result env (clock w) (ChatEnv (CHAT_ID env)) startup_text = Ret tt ->
  infinity_polling env (S (clock w)) = PollingReturned ->
  main env w =
    (Ret (Normal tt),
     after 2
       [Logged INFO "Запуск бота..." false;
        ThreadStarted;
        SendMessage (ChatEnv (CHAT_ID env)) startup_text (Some "HTML") None
          (Ret tt);
        Logged INFO "Бот успешно запущен" false;
        PollingStarted] w).
Proof.
  intros Hquiet Hsend Hpoll.
  unfold main. now rewrite (main_try_quiet env w Hquiet), Hsend, Hpoll.
Qed.

Lemma polling_return_ends_quietly_witness :
  main Scenario.polling_returns initial_world =
    (Ret (Normal tt),
     after 2
       [Logged INFO "Запуск бота..." false;
        ThreadStarted;
        SendMessage (ChatEnv (CHAT_ID Scenario.polling_returns)) startup_text
          (Some "HTML") None (Ret tt);
        Logged INFO "Бот успешно запущен" false;
        PollingStarted] initial_world).
Proof.
  apply (polling_return_ends_quietly Scenario.polling_returns initial_world);
    reflexivity.
Defined.

(** ** The texts *)

Lemma contains_in_piece (l1 : list string) (piece : string) (l2 : list string)
  (s : string) :
  Contains piece s -> Contains (fstring (l1 ++ piece :: l2)) s.
Proof.
  intros (before & after_ & ->).
  exists (String.append (fstring l1) before),
         (String.append after_ (fstring l2)).
  now rewrite fstring_app, fstring_cons, !append_assoc.
Qed.

(** X16.  The announcement of a signal is the header of a new signal, an
    empty line and the very text [/status] would reply with for that signal;
    it names the symbol and shows the signal's direction, its price as
    [:.2f] renders it and its timestamp. *)
Theorem announcement_shows_the_signal (env : Env) (s : signal_data) :
  announcement env s =
    fstring ["🔔 <b>НОВЫЙ СИГНАЛ!</b>"; nl; nl; format_signal_message env s] /\
  Contains (announcement env s) (fstring ["<b>"; "BTC/USDT"; "</b>"]) /\
  Contains (announcement env s)
    (fstring ["⚡️ Сигнал: <b>"; direction s; "</b>"]) /\
  Contains (announcement env s)
    (fstring ["💰 Цена: <code>"; format_2f env (price s); "</code> USDT"]) /\
  Contains (announcement env s) (fstring ["🕐 Время: "; timestamp s]).
Proof.
  split; [reflexivity |].
  unfold announcement.
  repeat split; apply (contains_in_piece [_; _; _] _ []);
    unfold format_signal_message.
  - destruct (fstring_contains ["📊 "] ["<b>"; "BTC/USDT"; "</b>"]
                [nl; "⚡️ Сигнал: <b>"; direction s; "</b>"; nl;
                 "💰 Цена: <code>"; format_2f env (price s); "</code> USDT";
                 nl; "🕐 Время: "; timestamp s]) as (b & a & E).
    exists b, a. rewrite <- E. reflexivity.
  - apply (fstring_contains [_; _; _; _] [_; _; _] (_ :: _)).
  - apply (fstring_contains [_; _; _; _; _; _; _; _] [_; _; _] (_ :: _)).
  - apply (fstring_contains [_; _; _; _; _; _; _; _; _; _; _; _] [_; _] []).
Qed.

(** ** The script as a whole *)

(** With a malformed token the script ends at line 30. *)
Example script_with_malformed_token :
  script Scenario.malformed_token initial_world =
    (Raise (mkExn ValueError "Token must contain a colon"), initial_world).
Proof. reflexivity. Qed.

(** Ctrl-C as the start-up notification is due: nothing is sent but the
    notice that the bot has stopped, and the listener never starts. *)
Example script_interrupted_at_startup :
  let w := snd (script Scenario.ctrl_c_at_startup initial_world) in
  delivered (trace w) = ["🛑 Бот остановлен"] /\
  is_running (trading_bot w) = false /\
  existsb (fun e => match e with PollingStarted => true | _ => false end)
          (trace w) = false.
Proof. repeat split. Qed.
